(** * VendorGrid: the vendor deduplication and change-tracking layer

    A shallow embedding of [backend/app]: the [Vendor] table with its
    constraints ([models/vendor.py]), the repository
    ([repositories/vendor_repository.py]), the vendor service
    ([services/vendor_service.py]) and the integration service
    ([services/integration_service.py]), followed by the properties the
    specification states about them.

    Python [int] is [Z], [str] is [string] (one character per byte),
    [Optional[T]] is [option T], a [datetime] is a point on the [Z] time
    line.  Code that awaits the storage session is written in a small
    state-and-exception monad over the table. *)

From Stdlib Require Import ZArith QArith Qround Lia Ascii.
From stdpp Require Import base numbers list strings sorting.

Local Open Scope Z_scope.

(** ** Python values *)

Module Py.

(** [str.lower] on the ASCII range. *)
Definition lower_char (c : ascii) : ascii :=
  let n := Ascii.N_of_ascii c in
  if ((65 <=? n) && (n <=? 90))%N then Ascii.ascii_of_N (n + 32) else c.

Fixpoint lower (s : string) : string :=
  match s with
  | EmptyString => EmptyString
  | String c s' => String (lower_char c) (lower s')
  end.

(** The characters [str.strip] removes when called without argument. *)
Definition isspace (c : ascii) : bool :=
  let n := Ascii.N_of_ascii c in
  (((9 <=? n) && (n <=? 13)) || ((28 <=? n) && (n <=? 32)))%N.

Fixpoint lstrip (s : string) : string :=
  match s with
  | EmptyString => EmptyString
  | String c s' => if isspace c then lstrip s' else s
  end.

Definition rstrip (s : string) : string := String.rev (lstrip (String.rev s)).

Definition strip (s : string) : string := rstrip (lstrip s).

(** Truth value of a [str]: only the empty string is false. *)
Definition truthy (s : string) : bool :=
  match s with EmptyString => false | String _ _ => true end.

(** Truth value of an [Optional[str]]: [None] and [""] are false. *)
Definition truthy_opt (o : option string) : bool :=
  match o with Some s => truthy s | None => false end.




End Py.

(** ** SQL pattern matching *)

Module Sql.

(** [s LIKE p]: [%] matches any run of characters, [_] any single
    character, every other character itself.  No escape character is
    in force, as the repository passes none. *)
Fixpoint like (p s : string) {struct p} : bool :=
  match p with
  | EmptyString => match s with EmptyString => true | _ => false end
  | String c p' =>
      if Ascii.eqb c "%"%char then
        (fix skip (s : string) : bool :=
           like p' s ||
           match s with
           | EmptyString => false
           | String _ s' => skip s'
           end) s
      else
        match s with
        | EmptyString => false
        | String d s' =>
            (Ascii.eqb c "_"%char || Ascii.eqb c d) && like p' s'
        end
  end.

(** [lower(col) LIKE p] on a nullable column: NULL yields NULL, which
    a WHERE clause (and an OR of conditions) treats as not satisfied. *)
Definition lower_like (col : option string) (p : string) : bool :=
  match col with
  | Some s => like p (Py.lower s)
  | None => false
  end.

End Sql.

(** ** Exceptions and the session monad *)

(** The exception classes the modelled code raises or lets through. *)
Inductive exn : Type :=
| HTTPException (status_code : Z) (detail : string)
| IntegrityError
| MultipleResultsFound
| ValidationError
| ZeroDivisionError
| ClientError.

Inductive result (A : Type) : Type :=
| Ok (a : A)
| Raise (e : exn).
Arguments Ok {A} a.
Arguments Raise {A} e.

(** ** The [vendors] table *)

Module Vendor.

(** A persisted row.  [name] and [tax_id] are [nullable=False]. *)
Record t : Type := mk {
  id : Z;
  name : string;
  tax_id : string;
  address : option string;
  contact_email : option string;
  created_at : Z;
  updated_at : Z
}.

(** The entity before it is flushed: [Vendor(name=..., tax_id=...,
    address=..., contact_email=...)], the remaining columns being
    filled in by the database. *)
Record transient : Type := new {
  t_name : string;
  t_tax_id : string;
  t_address : option string;
  t_contact_email : option string
}.

Global Instance eq_dec : EqDecision t.
Proof. solve_decision. Defined.

End Vendor.

(** The table is the list of its rows, in rowid order. *)
Abbreviation Table := (list Vendor.t).

(** [UniqueConstraint('tax_id', name='uix_vendor_tax_id')]. *)
Definition uix_vendor_tax_id (rows : Table) : Prop :=
  NoDup (Vendor.tax_id <$> rows).

(** A computation against the session: it reads and writes the table and
    either returns or raises. *)
Definition M (A : Type) : Type := Table → result A * Table.

Definition ret {A} (a : A) : M A := λ rows, (Ok a, rows).

Definition raise {A} (e : exn) : M A := λ rows, (Raise e, rows).

Definition bind {A B} (m : M A) (k : A → M B) : M B := λ rows,
  match m rows with
  | (Ok a, rows') => k a rows'
  | (Raise e, rows') => (Raise e, rows')
  end.

(** [try: m except <the classes h accepts>: h e]. *)
Definition try_except {A} (m : M A) (h : exn → option (M A)) : M A := λ rows,
  match m rows with
  | (Ok a, rows') => (Ok a, rows')
  | (Raise e, rows') =>
      match h e with
      | Some handler => handler rows'
      | None => (Raise e, rows')
      end
  end.

(** Lift a computation that does not touch the session. *)
Definition lift {A} (r : result A) : M A := λ rows, (r, rows).

Notation "'do' x <- c ; k" := (bind c (λ x, k))
  (at level 10, x name, c at level 100, k at level 200).

(** ** Pydantic schemas ([schemas/vendor.py]) *)

Module VendorCreate.
Record t : Type := mk {
  name : string;
  tax_id : string;
  address : option string;
  contact_email : option string
}.
End VendorCreate.

(** The columns the dict handed to the UPDATE's [values] may set; a
    field is [None] when its key is missing from the dict, [Some None]
    when the key maps to Python's [None]. *)
Module Values.
Record t : Type := mk {
  name : option (option string);
  tax_id : option (option string);
  address : option (option string);
  contact_email : option (option string)
}.
End Values.

(** [VendorUpdate]: every field is optional and pydantic remembers which
    ones the caller set.  Reading an attribute yields [None] both for a
    field that was not set and for one set to [None];
    [model_dump(exclude_unset=True)] keeps exactly the fields set. *)
Module VendorUpdate.
Record t : Type := mk {
  fields_set : Values.t
}.
Definition name (u : t) : option string := mjoin (Values.name (fields_set u)).
Definition tax_id (u : t) : option string := mjoin (Values.tax_id (fields_set u)).
Definition address (u : t) : option string := mjoin (Values.address (fields_set u)).
Definition contact_email (u : t) : option string :=
  mjoin (Values.contact_email (fields_set u)).
Definition model_dump_exclude_unset (u : t) : Values.t := fields_set u.
End VendorUpdate.

Module VendorSearchParams.
Record t : Type := mk {
  name : option string;
  tax_id : option string;
  address : option string;
  contact_email : option string
}.
End VendorSearchParams.

(** [VendorRead.model_validate(vendor)] copies the row's attributes. *)
Definition VendorRead : Type := Vendor.t.

Module VendorPaginationResponse.
Record t : Type := mk {
  items : list VendorRead;
  total : Z;
  page : Z;
  page_size : Z;
  total_pages : Z
}.
End VendorPaginationResponse.

(** ** The repository ([repositories/vendor_repository.py]) *)

Module VendorRepository.

(** [result.scalar_one_or_none()]. *)
Definition scalar_one_or_none {A} (rows : list A) : result (option A) :=
  match rows with
  | [] => Ok None
  | [r] => Ok (Some r)
  | _ :: _ :: _ => Raise MultipleResultsFound
  end.

Definition get_by_id (id : Z) : M (option Vendor.t) := λ rows,
  (scalar_one_or_none (filter (λ v, Vendor.id v = id) rows), rows).

Definition get_by_tax_id (tax_id : string) : M (option Vendor.t) := λ rows,
  (scalar_one_or_none (filter (λ v, Vendor.tax_id v = tax_id) rows), rows).

Definition get_all : M (list Vendor.t) := λ rows, (Ok rows, rows).

(** The rowid an [Integer] primary key receives on INSERT: one more
    than the largest in the table, 1 in an empty table. *)
Definition next_id (rows : Table) : Z :=
  1 + foldr Z.max 0 (Vendor.id <$> rows).

(** [session.add(vendor); flush(); refresh(vendor)]: the INSERT is
    refused with [IntegrityError] when the tax id is already in the
    table; otherwise the row gets its id and both timestamps from
    [func.now()]. *)
Definition create (now : Z) (vendor : Vendor.transient) : M Vendor.t := λ rows,
  if bool_decide (Vendor.t_tax_id vendor ∈ Vendor.tax_id <$> rows)
  then (Raise IntegrityError, rows)
  else
    let row := Vendor.mk (next_id rows) (Vendor.t_name vendor)
                 (Vendor.t_tax_id vendor) (Vendor.t_address vendor)
                 (Vendor.t_contact_email vendor) now now in
    (Ok row, rows ++ [row]).

(** A NOT NULL column takes the value given, keeps its own when the
    dict has no such key, and refuses NULL. *)
Definition set_not_null (old : string) (new : option (option string))
  : option string :=
  match new with
  | None => Some old
  | Some (Some s) => Some s
  | Some None => None
  end.

Definition set_nullable (old : option string) (new : option (option string))
  : option string :=
  match new with
  | None => old
  | Some x => x
  end.

(** The effect of the SET clause on one row, with
    [onupdate=func.now()] for [updated_at]; [None] when a NOT NULL
    column would become NULL. *)
Definition set_values (now : Z) (vendor_data : Values.t) (v : Vendor.t)
  : option Vendor.t :=
  name' ← set_not_null (Vendor.name v) (Values.name vendor_data);
  tax_id' ← set_not_null (Vendor.tax_id v) (Values.tax_id vendor_data);
  Some (Vendor.mk (Vendor.id v) name' tax_id'
          (set_nullable (Vendor.address v) (Values.address vendor_data))
          (set_nullable (Vendor.contact_email v)
             (Values.contact_email vendor_data))
          (Vendor.created_at v) now).

(** [UPDATE vendors SET ... WHERE id = :id RETURNING ...]: the
    statement is refused with [IntegrityError], leaving the table as
    it was, when it would break NOT NULL or the uniqueness of
    [tax_id]. *)
Definition update (now : Z) (id : Z) (vendor_data : Values.t)
  : M (option Vendor.t) := λ rows,
  match mapM (λ v, if bool_decide (Vendor.id v = id)
                   then set_values now vendor_data v else Some v) rows with
  | None => (Raise IntegrityError, rows)
  | Some rows' =>
      if bool_decide (uix_vendor_tax_id rows')
      then (scalar_one_or_none (filter (λ v, Vendor.id v = id) rows'), rows')
      else (Raise IntegrityError, rows)
  end.

(** [DELETE FROM vendors WHERE id = :id]; true when [rowcount > 0]. *)
Definition delete (id : Z) : M bool := λ rows,
  let rows' := filter (λ v, Vendor.id v ≠ id) rows in
  (Ok (bool_decide (length rows' < length rows)%nat), rows').

(** The LIKE condition a filter contributes, if the filter is truthy. *)
Definition condition (col : Vendor.t → option string) (f : option string)
  : list (Vendor.t → bool) :=
  match f with
  | Some s =>
      if Py.truthy s
      then [λ v, Sql.lower_like (col v) ("%" +:+ Py.lower s +:+ "%")]
      else []
  | None => []
  end.

Definition conditions (name tax_id address contact_email : option string)
  : list (Vendor.t → bool) :=
  condition (λ v, Some (Vendor.name v)) name ++
  condition (λ v, Some (Vendor.tax_id v)) tax_id ++
  condition Vendor.address address ++
  condition Vendor.contact_email contact_email.

(** The WHERE clause: the [or_] of all conditions, and no clause at
    all when there is none. *)
Definition where_ (conds : list (Vendor.t → bool)) (v : Vendor.t) : bool :=
  match conds with
  | [] => true
  | _ :: _ => existsb (λ c, c v) conds
  end.

(** [ORDER BY id]. *)
Definition id_le (a b : Vendor.t) : Prop := Vendor.id a ≤ Vendor.id b.

Global Instance id_le_dec : RelDecision id_le.
Proof. intros a b. unfold id_le. apply _. Defined.

Definition order_by_id (rows : list Vendor.t) : list Vendor.t :=
  merge_sort id_le rows.

(** [OFFSET o LIMIT n] as SQLite, the engine [database.py] configures,
    evaluates them: a negative offset is no offset, a negative limit
    no limit. *)
Definition offset_limit {A} (o n : Z) (rows : list A) : list A :=
  let rest := drop (Z.to_nat o) rows in
  if n <? 0 then rest else take (Z.to_nat n) rest.

Definition search_vendors (name tax_id address contact_email : option string)
    (page page_size : Z) : M (list Vendor.t * Z) := λ rows,
  let conds := conditions name tax_id address contact_email in
  let matching := List.filter (where_ conds) rows in
  let total_count := Z.of_nat (length matching) in
  let offset := (page - 1) * page_size in
  let vendors := offset_limit offset page_size (order_by_id matching) in
  (Ok (vendors, total_count), rows).

End VendorRepository.

(** ** CSV import data ([pandas]) *)

(** A cell of the parsed frame: [NaN] for a missing value, otherwise the
    value, of which the import only ever takes [str(...)]. *)
Inductive cell : Type :=
| NaN
| Value (str : string).

Module pd.

Definition str (c : cell) : string :=
  match c with NaN => "nan" | Value s => s end.

Definition notna (c : option cell) : bool :=
  match c with Some (Value _) => true | _ => false end.

(** A row as [iterrows] yields it: cells labelled by column. *)
Definition Series : Type := list (string * cell).

(** [row.get(key)]: the cell under that exact label, if any. *)
Fixpoint get (row : Series) (key : string) : option cell :=
  match row with
  | [] => None
  | (k, c) :: rest => if String.eqb k key then Some c else get rest key
  end.

Record DataFrame : Type := mk {
  columns : list string;
  data : list (list cell)
}.

Definition iterrows (df : DataFrame) : list Series :=
  (λ cells, zip (columns df) cells) <$> data df.

End pd.

Module ImportError.

(** The [error] text: a literal of the service, or [str(e)] of the
    exception caught. *)
Inductive message : Type :=
| Text (s : string)
| StrOf (e : exn).

Record t : Type := mk {
  row_number : Z;
  field : string;
  error : message;
  raw_data : pd.Series
}.

End ImportError.

Module ImportResult.
Record t : Type := mk {
  total_rows : Z;
  success_count : Z;
  error_count : Z;
  errors : list ImportError.t
}.
End ImportResult.

(** ** The vendor service ([services/vendor_service.py]) *)

Module VendorService.

(** The one duplicate condition: [HTTPException(status_code=400, ...)]. *)
Definition duplicate_tax_id (tax_id : string) : exn :=
  HTTPException 400 ("Vendor with tax ID '" +:+ tax_id +:+ "' already exists").

Definition get_vendor_by_id (vendor_id : Z) : M (option VendorRead) :=
  do vendor <- VendorRepository.get_by_id vendor_id;
  ret vendor.

Definition get_all_vendors : M (list VendorRead) :=
  do vendors <- VendorRepository.get_all;
  ret vendors.

(** The response model checks [page >= 1] and [1 <= page_size <= 100]
    when it is built. *)
Definition VendorPaginationResponse_validate
    (r : VendorPaginationResponse.t) : result VendorPaginationResponse.t :=
  if (1 <=? VendorPaginationResponse.page r)
     && (1 <=? VendorPaginationResponse.page_size r)
     && (VendorPaginationResponse.page_size r <=? 100)
  then Ok r else Raise ValidationError.

Definition clamp_page (page : Z) : Z :=
  if page <? 1 then 1 else page.

Definition clamp_page_size (page_size : Z) : Z :=
  if page_size <? 1 then 1
  else if page_size >? 100 then 100
  else page_size.

Definition search_vendors_paged (search_params : VendorSearchParams.t)
    (page page_size : Z) : M VendorPaginationResponse.t :=
  let page := clamp_page page in
  let page_size := clamp_page_size page_size in
  do found <- VendorRepository.search_vendors
                (VendorSearchParams.name search_params)
                (VendorSearchParams.tax_id search_params)
                (VendorSearchParams.address search_params)
                (VendorSearchParams.contact_email search_params)
                page page_size;
  let vendors := fst found in
  let total_count := snd found in
  let total_pages := (total_count + page_size - 1) / page_size in
  lift (VendorPaginationResponse_validate
          (VendorPaginationResponse.mk vendors total_count page page_size
             total_pages)).

(** What other requests commit while this one is suspended at an
    [await]. *)
Definition suspended (others : Table → Table) : M unit := λ rows,
  (Ok tt, others rows).

(** [create_vendor], with the writes [others] of concurrent requests
    landing between the lookup and the flush. *)
Definition create_vendor_among (others : Table → Table) (now : Z)
    (vendor_data : VendorCreate.t) : M VendorRead :=
  do existing_vendor <-
    VendorRepository.get_by_tax_id (VendorCreate.tax_id vendor_data);
  match existing_vendor with
  | Some _ => raise (duplicate_tax_id (VendorCreate.tax_id vendor_data))
  | None =>
      let vendor := Vendor.new (VendorCreate.name vendor_data)
                      (VendorCreate.tax_id vendor_data)
                      (VendorCreate.address vendor_data)
                      (VendorCreate.contact_email vendor_data) in
      do _ <- suspended others;
      try_except
        (do created_vendor <- VendorRepository.create now vendor;
         ret created_vendor)
        (λ e, match e with
              | IntegrityError =>
                  Some (raise (duplicate_tax_id
                                 (VendorCreate.tax_id vendor_data)))
              | _ => None
              end)
  end.

(** [create_vendor] as one request runs it on its own. *)
Definition create_vendor (now : Z) (vendor_data : VendorCreate.t)
  : M VendorRead :=
  create_vendor_among (λ rows, rows) now vendor_data.

Definition update_vendor (now : Z) (vendor_id : Z)
    (vendor_data : VendorUpdate.t) : M (option VendorRead) :=
  do existing_vendor <- VendorRepository.get_by_id vendor_id;
  match existing_vendor with
  | None => ret None
  | Some existing_vendor =>
      do _ <-
        match VendorUpdate.tax_id vendor_data with
        | Some tax_id =>
            if Py.truthy tax_id
               && negb (String.eqb tax_id (Vendor.tax_id existing_vendor))
            then
              do conflict_vendor <- VendorRepository.get_by_tax_id tax_id;
              match conflict_vendor with
              | Some c =>
                  if negb (Vendor.id c =? vendor_id)
                  then raise (duplicate_tax_id tax_id)
                  else ret tt
              | None => ret tt
              end
            else ret tt
        | None => ret tt
        end;
      let update_data := VendorUpdate.model_dump_exclude_unset vendor_data in
      do updated_vendor <- VendorRepository.update now vendor_id update_data;
      ret updated_vendor
  end.

Definition delete_vendor (vendor_id : Z) : M bool :=
  VendorRepository.delete vendor_id.

Section CsvImport.

(** [pd.read_csv(io.StringIO(content.decode('utf-8')))]: the frame, or
    the text of the exception raised. *)
Variable read_csv : string → string + pd.DataFrame.

(** Pydantic's [EmailStr]: the normalised address, or nothing when the
    text is not an address. *)
Variable validate_email : string → option string.

(** Building [VendorCreate(...)] validates [contact_email]. *)
Definition VendorCreate_validate (name tax_id : string)
    (address contact_email : option string) : result VendorCreate.t :=
  match contact_email with
  | None => Ok (VendorCreate.mk name tax_id address None)
  | Some e =>
      match validate_email e with
      | Some e' => Ok (VendorCreate.mk name tax_id address (Some e'))
      | None => Raise ValidationError
      end
  end.

(** [row.get(key, '')]. *)
Definition get_or_empty (row : pd.Series) (key : string) : cell :=
  default (Value "") (pd.get row key).

Definition optional_text (row : pd.Series) (key : string) : option string :=
  if pd.notna (pd.get row key) then Some (pd.str (get_or_empty row key))
  else None.

(** The body of the loop for one row; [None] for a row imported,
    otherwise the error recorded for it. *)
Definition import_row (now : Z) (row_num : Z) (row : pd.Series)
  : M (option ImportError.t) :=
  let raw_data := row in
  try_except
    (do vendor_data <- lift (VendorCreate_validate
                         (Py.strip (pd.str (get_or_empty row "name")))
                         (Py.strip (pd.str (get_or_empty row "tax_id")))
                         (optional_text row "address")
                         (optional_text row "contact_email"));
     if negb (Py.truthy (VendorCreate.name vendor_data)) then
       ret (Some (ImportError.mk row_num "name"
                    (ImportError.Text "Name is required") raw_data))
     else if negb (Py.truthy (VendorCreate.tax_id vendor_data)) then
       ret (Some (ImportError.mk row_num "tax_id"
                    (ImportError.Text "Tax ID is required") raw_data))
     else
       do existing_vendor <-
         VendorRepository.get_by_tax_id (VendorCreate.tax_id vendor_data);
       match existing_vendor with
       | Some _ =>
           ret (Some (ImportError.mk row_num "tax_id"
                        (ImportError.Text
                           ("Vendor with tax ID '"
                            +:+ VendorCreate.tax_id vendor_data
                            +:+ "' already exists"))
                        raw_data))
       | None =>
           do _ <- create_vendor now vendor_data;
           ret None
       end)
    (λ e, Some (ret (Some (ImportError.mk row_num "general"
                             (ImportError.StrOf e) raw_data)))).

(** [for idx, row in df.iterrows()], carrying [success_count] and
    [errors]. *)
Fixpoint import_rows (now : Z) (idx : Z) (rows : list pd.Series)
    (success_count : Z) (errors : list ImportError.t)
  : M (Z * list ImportError.t) :=
  match rows with
  | [] => ret (success_count, errors)
  | row :: rest =>
      do outcome <- import_row now (idx + 2) row;
      match outcome with
      | None => import_rows now (idx + 1) rest (success_count + 1) errors
      | Some err => import_rows now (idx + 1) rest success_count (errors ++ [err])
      end
  end.

Definition expected_cols : list string :=
  ["name"; "tax_id"; "address"; "contact_email"].

Definition missing_cols (df : pd.DataFrame) : list string :=
  List.filter (λ c, negb (bool_decide (c ∈ Py.lower <$> pd.columns df)))
    expected_cols.

(** [', '.join(...)]. *)
Fixpoint join (parts : list string) : string :=
  match parts with
  | [] => ""
  | [p] => p
  | p :: rest => p +:+ ", " +:+ join rest
  end.

Definition import_vendors_csv (now : Z) (content : string)
  : M ImportResult.t :=
  match read_csv content with
  | inl msg => raise (HTTPException 400 ("Invalid CSV file: " +:+ msg))
  | inr df =>
      let total_rows := Z.of_nat (length (pd.data df)) in
      match missing_cols df with
      | _ :: _ as missing =>
          raise (HTTPException 400
                   ("Missing required columns: " +:+ join missing))
      | [] =>
          do done <- import_rows now 0 (pd.iterrows df) 0 [];
          ret (ImportResult.mk total_rows (fst done)
                 (Z.of_nat (length (snd done))) (snd done))
      end
  end.

End CsvImport.

End VendorService.

(** ** Integration schemas ([schemas/integration.py]) *)

Module IntegrationVendorRead.
Record t : Type := mk {
  id : Z;
  name : string;
  tax_id : string;
  status : string;
  address : option string;
  contact_email : option string;
  created_at : Z;
  updated_at : Z
}.
End IntegrationVendorRead.

Module VendorChange.
Record t : Type := mk {
  vendor_id : Z;
  change_type : string;
  changed_fields : option (list string);
  timestamp : Z;
  vendor_data : IntegrationVendorRead.t
}.
End VendorChange.

Module VendorChangesResponse.
Record t : Type := mk {
  changes : list VendorChange.t;
  total_changes : Z;
  since_timestamp : Z;
  page : Z;
  page_size : Z;
  total_pages : Z
}.

End VendorChangesResponse.

Module ApiKeyValidateResponse.
Record t : Type := mk {
  valid : bool;
  message : string;
  expires_at : option Z
}.
End ApiKeyValidateResponse.

Module IntegrationHealthCheck.
Record t : Type := mk {
  status : string;
  service : string;
  timestamp : Z;
  total_vendors : option Z;
  last_updated : option Z
}.
End IntegrationHealthCheck.

(** ** The integration service ([services/integration_service.py]) *)

Module IntegrationService.

Definition to_integration (vendor : VendorRead) : IntegrationVendorRead.t :=
  IntegrationVendorRead.mk (Vendor.id vendor) (Vendor.name vendor)
    (Vendor.tax_id vendor) "active" (Vendor.address vendor)
    (Vendor.contact_email vendor) (Vendor.created_at vendor)
    (Vendor.updated_at vendor).

Definition get_vendors_for_integration : M (list IntegrationVendorRead.t) :=
  do vendors <- VendorService.get_all_vendors;
  ret (to_integration <$> vendors).




(** The service object's own fields; [_webhook_session] records whether
    the client session has been created. *)
Record t : Type := mk {
  webhook_url : option string;
  webhook_timeout : Z;
  _webhook_session : bool
}.

Inductive WebhookEventType : Type :=
| VENDOR_CREATED
| VENDOR_UPDATED
| VENDOR_DELETED
| VENDOR_IMPORTED.

(** What the network does with one delivery: whether
    [aiohttp.ClientSession(...)] can be built, and what awaiting the
    POST gives, a response status or an exception. *)
Record network : Type := {
  client_session : result unit;
  post : result Z
}.

(** [try: body except Exception as e: handler e], for a block that does
    not touch the table. *)
Definition try_except_Exception {A} (body : result A)
    (handler : exn → result A) : result A :=
  match body with
  | Ok a => Ok a
  | Raise e => handler e
  end.

(** The session the [try] block ends up posting with. *)
Definition ensure_session (self : t) (net : network) : result unit :=
  if negb (_webhook_session self) then client_session net else Ok tt.

(** Returns the boolean (or the exception that escapes) together with
    the service object as the call leaves it. *)
Definition send_webhook_notification (self : t) (net : network)
    (event_type : WebhookEventType) (data : list (string * string))
  : result bool * t :=
  if negb (Py.truthy_opt (webhook_url self)) then (Ok true, self)
  else
    let self' :=
      match ensure_session self net with
      | Ok _ => mk (webhook_url self) (webhook_timeout self) true
      | Raise _ => self
      end in
    (try_except_Exception
       (match ensure_session self net with
        | Raise e => Raise e
        | Ok _ =>
            match post net with
            | Raise e => Raise e
            | Ok status =>
                if bool_decide (status ∈ [200; 201; 202])
                then Ok true else Ok false
            end
        end)
       (λ _, Ok false),
     self').

(** [max(xs, default=None)]. *)
Definition py_max (xs : list Z) : option Z :=
  match xs with
  | [] => None
  | x :: rest => Some (foldl Z.max x rest)
  end.

(** [get_health_status] over the vendor service the object was built
    with: [get_all_vendors] is the injected service's listing, [now]
    what [datetime.utcnow()] reads. *)
Definition get_health_status_with (get_all_vendors : M (list VendorRead))
    (now : Z) : M IntegrationHealthCheck.t :=
  try_except
    (do vendors <- get_all_vendors;
     let last_updated :=
       match vendors with
       | [] => None
       | _ :: _ => py_max (Vendor.updated_at <$> vendors)
       end in
     ret (IntegrationHealthCheck.mk "healthy" "VendorGrid P-2501 Integration"
            now (Some (Z.of_nat (length vendors))) last_updated))
    (λ e, Some (ret (IntegrationHealthCheck.mk "unhealthy"
                       "VendorGrid P-2501 Integration" now None None))).

Definition get_health_status (now : Z) : M IntegrationHealthCheck.t :=
  get_health_status_with VendorService.get_all_vendors now.


End IntegrationService.

(** ** The vendor routes ([routes/vendor_routes.py]) *)

Module VendorRoutes.

Section Handlers.

(** [str(e)] of an exception, as it is pasted into a 500 detail. *)
Variable str : exn → string.

(** [except HTTPException: raise] then [except Exception as e: raise
    HTTPException(status_code=500, ...)]. *)
Definition http_or_500 {A} (m : M A) : M A :=
  try_except m
    (λ e, match e with
          | HTTPException _ _ => None
          | _ => Some (raise (HTTPException 500
                                ("Internal server error: " +:+ str e)))
          end).

Definition get_vendor (vendor_id : Z) : M VendorRead :=
  do vendor <- VendorService.get_vendor_by_id vendor_id;
  match vendor with
  | None => raise (HTTPException 404 "Vendor not found")
  | Some vendor => ret vendor
  end.

Definition create_vendor (now : Z) (vendor : VendorCreate.t) : M VendorRead :=
  http_or_500 (VendorService.create_vendor now vendor).

Definition update_vendor (now : Z) (vendor_id : Z)
    (vendor_update : VendorUpdate.t) : M VendorRead :=
  http_or_500
    (do updated_vendor <-
       VendorService.update_vendor now vendor_id vendor_update;
     match updated_vendor with
     | None => raise (HTTPException 404 "Vendor not found")
     | Some updated_vendor => ret updated_vendor
     end).

Definition delete_vendor (vendor_id : Z) : M unit :=
  do deleted <- VendorService.delete_vendor vendor_id;
  if negb deleted then raise (HTTPException 404 "Vendor not found")
  else ret tt.

End Handlers.

End VendorRoutes.

(** * The specification's vocabulary *)

(** ** Pages *)

(** What the paged search answers, for any arguments. *)
Definition paged_search_answer (search_params : VendorSearchParams.t)
    (page page_size : Z) (rows : Table) : Prop :=
  ∃ r,
    VendorService.search_vendors_paged search_params page page_size rows
      = (Ok r, rows)
    ∧ VendorPaginationResponse.page r = Z.max 1 page
    ∧ VendorPaginationResponse.page_size r = Z.max 1 (Z.min 100 page_size)
    ∧ VendorPaginationResponse.total r
      = Z.of_nat (length (List.filter
          (VendorRepository.where_
             (VendorRepository.conditions
                (VendorSearchParams.name search_params)
                (VendorSearchParams.tax_id search_params)
                (VendorSearchParams.address search_params)
                (VendorSearchParams.contact_email search_params))) rows))
    ∧ VendorPaginationResponse.total_pages r
      = Qceiling (inject_Z (VendorPaginationResponse.total r)
                  / inject_Z (VendorPaginationResponse.page_size r))
    ∧ VendorService.search_vendors_paged search_params page page_size rows
      = VendorService.search_vendors_paged search_params
          (Z.max 1 page) (Z.max 1 (Z.min 100 page_size)) rows.

(** The specification's wording for the change feed: out-of-range
    [page] and [page_size] are silently clamped, as the search does. *)
Definition clamps_like_search {A} (f : Z → Z → M A) : Prop :=
  ∀ page page_size rows,
    (∃ r, fst (f page page_size rows) = Ok r)
    ∧ f page page_size rows
      = f (VendorService.clamp_page page)
          (VendorService.clamp_page_size page_size) rows.

(** ** Search filters *)

(** The specification's reading of a filter: the needle occurs in the
    text somewhere. *)
Definition is_substring (needle text : string) : Prop :=
  ∃ before after, text = before +:+ needle +:+ after.

(** A filter counts as supplied when it is given and not empty. *)
Definition supplied (f : option string) : Prop :=
  ∃ s, f = Some s ∧ s ≠ "".

(** A supplied filter matches a field as a case-insensitive substring;
    a field that is NULL matches nothing. *)
Definition filter_matches (f field : option string) : Prop :=
  ∃ s text, f = Some s ∧ s ≠ "" ∧ field = Some text
            ∧ is_substring (Py.lower s) (Py.lower text).

(** The matching set as the specification words it: any supplied filter
    matches, or none is supplied. *)
Definition in_matching_set (name tax_id address contact_email : option string)
    (v : Vendor.t) : Prop :=
  (¬ supplied name ∧ ¬ supplied tax_id ∧ ¬ supplied address
   ∧ ¬ supplied contact_email)
  ∨ filter_matches name (Some (Vendor.name v))
  ∨ filter_matches tax_id (Some (Vendor.tax_id v))
  ∨ filter_matches address (Vendor.address v)
  ∨ filter_matches contact_email (Vendor.contact_email v).





(** ** Tax-id uniqueness *)

(** No two distinct rows of the table share a tax id. *)
Definition tax_unique (rows : Table) : Prop :=
  ∀ (i j : nat) (v1 v2 : Vendor.t),
    rows !! i = Some v1 → rows !! j = Some v2 → i ≠ j →
    Vendor.tax_id v1 ≠ Vendor.tax_id v2.

(** A vendor with that tax id is in the table. *)
Definition tax_id_exists (t : string) (rows : Table) : Prop :=
  ∃ v, v ∈ rows ∧ Vendor.tax_id v = t.

(** A computation keeps a relation between tables when the table it
    leaves behind, returning or raising, is related to the one it
    started from. *)
Definition keeps (R : relation Table) {A} (m : M A) : Prop :=
  ∀ rows, R rows (snd (m rows)).

(** The constraint, if it held before, holds after. *)
Definition unique_after : relation Table :=
  λ rows rows', uix_vendor_tax_id rows → uix_vendor_tax_id rows'.

(** The write operations of the vendor service, as requests arrive. *)
Inductive operation : Type :=
| CreateVendor (now : Z) (vendor_data : VendorCreate.t)
| UpdateVendor (now : Z) (vendor_id : Z) (vendor_data : VendorUpdate.t)
| ImportVendorsCsv (now : Z) (content : string).

Section Operations.

Variable read_csv : string → string + pd.DataFrame.
Variable validate_email : string → option string.

(** The table one operation leaves behind, whether it returns or
    raises. *)
Definition run_operation (op : operation) (rows : Table) : Table :=
  match op with
  | CreateVendor now vendor_data =>
      snd (VendorService.create_vendor now vendor_data rows)
  | UpdateVendor now vendor_id vendor_data =>
      snd (VendorService.update_vendor now vendor_id vendor_data rows)
  | ImportVendorsCsv now content =>
      snd (VendorService.import_vendors_csv read_csv validate_email now
             content rows)
  end.

Definition run (ops : list operation) (rows : Table) : Table :=
  foldl (λ rows op, run_operation op rows) rows ops.

End Operations.

(** ** Updates *)

(** The row-by-row effect of the UPDATE statement. *)
Definition update_row (now id : Z) (vendor_data : Values.t) (v : Vendor.t)
  : option Vendor.t :=
  if bool_decide (Vendor.id v = id)
  then VendorRepository.set_values now vendor_data v else Some v.

(** The conflict check reads the table and either raises or lets the
    update go on. *)
Definition conflict_check (vendor_id : Z) (vendor_data : VendorUpdate.t)
    (existing_vendor : Vendor.t) : M unit :=
  match VendorUpdate.tax_id vendor_data with
  | Some tax_id =>
      if Py.truthy tax_id
         && negb (String.eqb tax_id (Vendor.tax_id existing_vendor))
      then
        do conflict_vendor <- VendorRepository.get_by_tax_id tax_id;
        match conflict_vendor with
        | Some c =>
            if negb (Vendor.id c =? vendor_id)
            then raise (VendorService.duplicate_tax_id tax_id)
            else ret tt
        | None => ret tt
        end
      else ret tt
  | None => ret tt
  end.

(** A required column after a partial update: the value supplied, or
    the previous one when the caller supplied none. *)
Definition required_field (old new : string) (given : option (option string))
  : Prop :=
  match given with
  | None => new = old
  | Some x => x = Some new
  end.

(** The same for a nullable column, which the caller may also clear. *)
Definition optional_field (old new : option string)
    (given : option (option string)) : Prop :=
  match given with
  | None => new = old
  | Some x => new = x
  end.

(** ** Import rows *)

Section RowData.

Variable validate_email : string → option string.

(** The [VendorCreate] the loop builds from a row. *)
Definition row_vendor_data (row : pd.Series) : result VendorCreate.t :=
  VendorService.VendorCreate_validate validate_email
    (Py.strip (pd.str (VendorService.get_or_empty row "name")))
    (Py.strip (pd.str (VendorService.get_or_empty row "tax_id")))
    (VendorService.optional_text row "address")
    (VendorService.optional_text row "contact_email").

(** A row the basic validation lets through. *)
Definition well_formed_row (row : pd.Series) (d : VendorCreate.t) : Prop :=
  row_vendor_data row = Ok d
  ∧ Py.truthy (VendorCreate.name d) = true
  ∧ Py.truthy (VendorCreate.tax_id d) = true.

End RowData.

(** ** Sample data *)

Definition acme : Vendor.t := Vendor.mk 1 "Acme" "T-1" None None 0 0.

Definition blank_tax : Vendor.t := Vendor.mk 2 "Blank" "" None None 0 0.

Definition xyz : Vendor.t :=
  Vendor.mk 3 "Other" "T-XYZ-3" (Some "1 Main St") None 0 0.

Definition set_tax_id (t : string) : VendorUpdate.t :=
  VendorUpdate.mk (Values.mk None (Some (Some t)) None None).

(** A table of [n] vendors named ["Vendor"], with tax ids ["T"], ["TT"], ... *)
Fixpoint sample_table (n : nat) : Table :=
  match n with
  | O => []
  | S n' =>
      sample_table n' ++
      [Vendor.mk (Z.of_nat n) "Vendor" (String.concat "" (replicate n "T"))
         None None 0 0]
  end.

Definition no_filters : VendorSearchParams.t :=
  VendorSearchParams.mk None None None None.


Definition sample_frame : pd.DataFrame :=
  pd.mk ["name"; "tax_id"; "address"; "contact_email"]
    [[Value "Bolt"; Value " T-9 "; NaN; NaN];
     [Value "Nut"; Value "T-9"; Value "1 Main St"; Value "nut@example.test"]].

Definition sample_read_csv (content : string) : string + pd.DataFrame :=
  inr sample_frame.

Definition sample_validate_email (e : string) : option string := Some e.

Definition configured (url : string) : IntegrationService.t :=
  IntegrationService.mk (Some url) 30 false.


Definition unreachable : IntegrationService.network :=
  {| IntegrationService.client_session := Ok tt;
     IntegrationService.post := Raise ClientError |}.

(** ** Requests *)

(** [PrimaryKeyConstraint] on [id]. *)
Definition pk_vendor_id (rows : Table) : Prop :=
  NoDup (Vendor.id <$> rows).

Definition unique_ids_after : relation Table :=
  λ rows rows', pk_vendor_id rows → pk_vendor_id rows'.

(** The requests that write: the operations above and the delete. *)
Inductive request : Type :=
| Write (op : operation)
| DeleteVendor (vendor_id : Z).

Section Requests.

Variable read_csv : string → string + pd.DataFrame.
Variable validate_email : string → option string.

Definition run_request (req : request) (rows : Table) : Table :=
  match req with
  | Write op => run_operation read_csv validate_email op rows
  | DeleteVendor vendor_id => snd (VendorService.delete_vendor vendor_id rows)
  end.

Definition serve (reqs : list request) (rows : Table) : Table :=
  foldl (λ rows req, run_request req rows) rows reqs.

End Requests.

(** The row an UPDATE puts in place of the rows with the given id. *)
Definition replaced (id : Z) (new : Vendor.t) (rows : Table) : Table :=
  (λ v, if bool_decide (Vendor.id v = id) then new else v) <$> rows.




(** A filter adds nothing to a query that ignores it. *)
Definition widens (f f' : option string) : Prop :=
  f' = f ∨ Py.truthy_opt f = false.

(** A frame whose header spells the name column with capitals. *)
Definition capitalised_frame : pd.DataFrame :=
  pd.mk ["Name"; "tax_id"; "address"; "contact_email"]
    [[Value "Bolt"; Value "T-9"; NaN; NaN];
     [Value "Nut"; Value "T-8"; NaN; NaN]].


(** * Properties *)

(** ** Arithmetic of pages *)

Lemma ceiling_division (a b : Z) :
  0 < b → (a + b - 1) / b = Qceiling (inject_Z a / inject_Z b).
Proof.
  intros Hb. destruct b as [|p|p]; try lia.
  unfold Qceiling, Qfloor, Qdiv, Qinv, Qmult, Qopp, inject_Z. simpl.
  rewrite Z.mul_1_r.
  assert (Hq : (a + Z.pos p - 1) / Z.pos p = - (- a / Z.pos p)).
  { pose proof (Z.div_mod (- a) (Z.pos p) ltac:(lia)) as Hm.
    pose proof (Z.mod_pos_bound (- a) (Z.pos p) ltac:(lia)) as Hr.
    symmetry. apply Z.div_unique with (r := Z.pos p - 1 - (- a) mod Z.pos p).
    - left. lia.
    - nia. }
  exact Hq.
Qed.

Lemma clamp_page_max (page : Z) : VendorService.clamp_page page = Z.max 1 page.
Proof. unfold VendorService.clamp_page. destruct (Z.ltb_spec page 1); lia. Qed.

Lemma clamp_page_size_range (page_size : Z) :
  VendorService.clamp_page_size page_size = Z.max 1 (Z.min 100 page_size).
Proof.
  unfold VendorService.clamp_page_size.
  destruct (Z.ltb_spec page_size 1); [lia|].
  destruct (Z.gtb_spec page_size 100); lia.
Qed.

Lemma clamp_page_idem (page : Z) :
  VendorService.clamp_page (VendorService.clamp_page page)
  = VendorService.clamp_page page.
Proof. rewrite !clamp_page_max. lia. Qed.

Lemma clamp_page_size_idem (page_size : Z) :
  VendorService.clamp_page_size (VendorService.clamp_page_size page_size)
  = VendorService.clamp_page_size page_size.
Proof. rewrite !clamp_page_size_range. lia. Qed.

Lemma search_vendors_paged_answer (search_params : VendorSearchParams.t)
    (page page_size : Z) (rows : Table) :
  paged_search_answer search_params page page_size rows.
Proof.
  unfold paged_search_answer.
  unfold VendorService.search_vendors_paged.
  rewrite <- !clamp_page_size_range, <- !clamp_page_max.
  rewrite clamp_page_idem, clamp_page_size_idem.
  set (p := VendorService.clamp_page page).
  set (ps := VendorService.clamp_page_size page_size).
  assert (Hp : 1 ≤ p) by (subst p; rewrite clamp_page_max; lia).
  assert (Hps : 1 ≤ ps ≤ 100) by (subst ps; rewrite clamp_page_size_range; lia).
  unfold bind, VendorRepository.search_vendors, lift,
    VendorService.VendorPaginationResponse_validate. simpl.
  assert (Hv : (1 <=? p) && (1 <=? ps) && (ps <=? 100) = true).
  { rewrite !andb_true_iff, !Z.leb_le. lia. }
  rewrite Hv. eexists. split; [reflexivity|]. simpl.
  repeat split; try reflexivity.
  apply ceiling_division. lia.
Qed.


Example search_page_size_1000_as_100 :
  VendorService.search_vendors_paged no_filters 1 1000 (sample_table 3)
  = VendorService.search_vendors_paged no_filters 1 100 (sample_table 3).
Proof. reflexivity. Qed.

Example search_page_0_as_1 :
  VendorService.search_vendors_paged no_filters 0 2 (sample_table 3)
  = VendorService.search_vendors_paged no_filters 1 2 (sample_table 3).
Proof. reflexivity. Qed.

Example search_105_by_50_has_3_pages :
  match fst (VendorService.search_vendors_paged no_filters 1 50
               (sample_table 105)) with
  | Ok r =>
      VendorPaginationResponse.total r = 105
      ∧ VendorPaginationResponse.total_pages r = 3
      ∧ length (VendorPaginationResponse.items r) = 50%nat
  | Raise _ => False
  end.
Proof. vm_compute. repeat split. Qed.

(** ** Search filters *)









Lemma truthy_nonempty (s : string) : Py.truthy s = true ↔ s ≠ "".
Proof. destruct s; simpl; split; intros; congruence. Qed.





Lemma not_substring_underscore_acme : ¬ is_substring "_" "acme".
Proof.
  intros (b & a & H).
  do 4 (destruct b as [|? b]; cbv in H; [discriminate H|injection H as _ H]).
  destruct b; cbv in H; discriminate H.
Qed.



(** The slip left out of the amended statement: the filter text reaches
    LIKE unescaped.  The filter [name="_"] is not a substring of
    ["Acme"] in any letter case and no other filter is given, yet the
    search returns the vendor, [_] standing for any character. *)
Lemma search_vendors_like_wildcard :
  VendorRepository.search_vendors (Some "_") None None None 1 50 [acme]
    = (Ok ([acme], 1), [acme])
  ∧ supplied (Some "_")
  ∧ ¬ in_matching_set (Some "_") None None None acme.
Proof.
  split; [reflexivity|]. split.
  - exists "_". split; [reflexivity|discriminate].
  - unfold in_matching_set. intros [(H & _)|[H|[H|[H|H]]]].
    + apply H. exists "_". split; [reflexivity|discriminate].
    + destruct H as (s & text & [= <-] & _ & [= <-] & H).
      exact (not_substring_underscore_acme H).
    + destruct H as (? & ? & [=] & _).
    + destruct H as (? & ? & [=] & _).
    + destruct H as (? & ? & [=] & _).
Qed.

(** C10. A filter given as the empty string is treated as a filter not
    given: for each of the four filters, the search with [""] returns
    what the search without that filter returns, rows and count alike. *)
Theorem search_vendors_empty_filter_absent
    (name tax_id address contact_email : option string) (page page_size : Z)
    (rows : Table) :
  VendorRepository.search_vendors (Some "") tax_id address contact_email
      page page_size rows
    = VendorRepository.search_vendors None tax_id address contact_email
        page page_size rows
  ∧ VendorRepository.search_vendors name (Some "") address contact_email
      page page_size rows
    = VendorRepository.search_vendors name None address contact_email
        page page_size rows
  ∧ VendorRepository.search_vendors name tax_id (Some "") contact_email
      page page_size rows
    = VendorRepository.search_vendors name tax_id None contact_email
        page page_size rows
  ∧ VendorRepository.search_vendors name tax_id address (Some "")
      page page_size rows
    = VendorRepository.search_vendors name tax_id address None
        page page_size rows.
Proof. repeat split. Qed.

(** ** Tax-id uniqueness *)

Lemma tax_unique_uix (rows : Table) :
  tax_unique rows ↔ uix_vendor_tax_id rows.
Proof.
  unfold tax_unique, uix_vendor_tax_id. rewrite NoDup_alt. split.
  - intros H i j t Hi Hj. rewrite list_lookup_fmap in Hi, Hj.
    destruct (rows !! i) as [v1|] eqn:E1; simpl in Hi; [|discriminate Hi].
    destruct (rows !! j) as [v2|] eqn:E2; simpl in Hj; [|discriminate Hj].
    destruct (decide (i = j)) as [|Hne]; [assumption|].
    exfalso. apply (H i j v1 v2 E1 E2 Hne). congruence.
  - intros H i j v1 v2 E1 E2 Hne Ht. apply Hne.
    apply (H i j (Vendor.tax_id v1)); rewrite list_lookup_fmap.
    + rewrite E1. reflexivity.
    + rewrite E2, Ht. reflexivity.
Qed.

Lemma tax_id_exists_elem (t : string) (rows : Table) :
  tax_id_exists t rows ↔ t ∈ Vendor.tax_id <$> rows.
Proof.
  unfold tax_id_exists. rewrite list_elem_of_fmap. split.
  - intros (v & Hv & <-). exists v. auto.
  - intros (v & -> & Hv). exists v. auto.
Qed.

Lemma uix_snoc (rows : Table) (row : Vendor.t) :
  uix_vendor_tax_id rows → Vendor.tax_id row ∉ Vendor.tax_id <$> rows →
  uix_vendor_tax_id (rows ++ [row]).
Proof.
  unfold uix_vendor_tax_id. intros H Hn. rewrite fmap_app. simpl.
  apply NoDup_app. split; [exact H|]. split.
  - intros t Ht Hs. apply list_elem_of_singleton in Hs. subst t.
    exact (Hn Ht).
  - apply NoDup_singleton.
Qed.

Global Instance unique_after_preorder : PreOrder unique_after.
Proof.
  split.
  - intros rows H. exact H.
  - intros a b c Hab Hbc H. exact (Hbc (Hab H)).
Qed.

Create HintDb keeps.

Section Keeps.

Context (R : relation Table) `{!PreOrder R}.

Lemma keeps_ret {A} (a : A) : keeps R (ret a).
Proof. intros rows. reflexivity. Qed.

Lemma keeps_raise {A} (e : exn) : keeps R (@raise A e).
Proof. intros rows. reflexivity. Qed.

Lemma keeps_lift {A} (r : result A) : keeps R (lift r).
Proof. intros rows. reflexivity. Qed.

Lemma keeps_bind {A B} (m : M A) (k : A → M B) :
  keeps R m → (∀ a, keeps R (k a)) → keeps R (bind m k).
Proof.
  intros Hm Hk rows. unfold bind. specialize (Hm rows).
  destruct (m rows) as [[a|e] rows']; simpl in *; [|exact Hm].
  etrans; [exact Hm|apply Hk].
Qed.

Lemma keeps_try_except {A} (m : M A) (h : exn → option (M A)) :
  keeps R m → (∀ e handler, h e = Some handler → keeps R handler) →
  keeps R (try_except m h).
Proof.
  intros Hm Hh rows. unfold try_except. specialize (Hm rows).
  destruct (m rows) as [[a|e] rows']; simpl in *; [exact Hm|].
  destruct (h e) as [handler|] eqn:E; [|exact Hm].
  etrans; [exact Hm|exact (Hh e handler E rows')].
Qed.

Lemma keeps_get_by_id (id : Z) : keeps R (VendorRepository.get_by_id id).
Proof. intros rows. reflexivity. Qed.

Lemma keeps_get_by_tax_id (tax_id : string) :
  keeps R (VendorRepository.get_by_tax_id tax_id).
Proof. intros rows. reflexivity. Qed.

Local Hint Resolve keeps_ret keeps_raise keeps_lift keeps_get_by_id
  keeps_get_by_tax_id : keeps.

Section Creating.

Hypothesis create_keeps :
  ∀ now vendor, keeps R (VendorRepository.create now vendor).

Lemma keeps_create_vendor (now : Z) (vendor_data : VendorCreate.t) :
  keeps R (VendorService.create_vendor now vendor_data).
Proof.
  unfold VendorService.create_vendor, VendorService.create_vendor_among.
  apply keeps_bind; [auto with keeps|]. intros [v|].
  - auto with keeps.
  - apply keeps_bind; [intros rows; reflexivity|]. intros _.
    apply keeps_try_except.
    + apply keeps_bind; auto with keeps.
    + intros e handler He. destruct e; try discriminate.
      injection He as <-. auto with keeps.
Qed.

Variable read_csv : string → string + pd.DataFrame.
Variable validate_email : string → option string.

Lemma keeps_import_row (now row_num : Z) (row : pd.Series) :
  keeps R (VendorService.import_row validate_email now row_num row).
Proof.
  unfold VendorService.import_row. apply keeps_try_except.
  - apply keeps_bind; [auto with keeps|]. intros d.
    destruct (negb _); [auto with keeps|].
    destruct (negb _); [auto with keeps|].
    apply keeps_bind; [auto with keeps|]. intros [v|].
    + auto with keeps.
    + apply keeps_bind; [apply keeps_create_vendor|].
      auto with keeps.
  - intros e handler [= <-]. auto with keeps.
Qed.

Lemma keeps_import_rows (now : Z) (batch : list pd.Series) :
  ∀ idx success_count errors,
    keeps R (VendorService.import_rows validate_email now idx batch
               success_count errors).
Proof.
  induction batch as [|row rest IH]; intros idx n errs; simpl.
  - auto with keeps.
  - apply keeps_bind; [apply keeps_import_row|].
    intros [err|]; apply IH.
Qed.

Lemma keeps_import_vendors_csv (now : Z) (content : string) :
  keeps R (VendorService.import_vendors_csv read_csv validate_email now
             content).
Proof.
  unfold VendorService.import_vendors_csv.
  destruct (read_csv content) as [msg|df]; [auto with keeps|].
  destruct (VendorService.missing_cols df); [|auto with keeps].
  apply keeps_bind; [apply keeps_import_rows|]. auto with keeps.
Qed.

End Creating.

Section Updating.

Hypothesis update_keeps :
  ∀ now id vendor_data, keeps R (VendorRepository.update now id vendor_data).

Lemma keeps_update_vendor (now vendor_id : Z)
    (vendor_data : VendorUpdate.t) :
  keeps R (VendorService.update_vendor now vendor_id vendor_data).
Proof.
  unfold VendorService.update_vendor.
  apply keeps_bind; [auto with keeps|]. intros [existing|].
  - apply keeps_bind.
    + destruct (VendorUpdate.tax_id vendor_data) as [t|]; [|auto with keeps].
      destruct (_ && _); [|auto with keeps].
      apply keeps_bind; [auto with keeps|]. intros [c|].
      * destruct (negb _); auto with keeps.
      * auto with keeps.
    + intros _. apply keeps_bind; auto with keeps.
  - auto with keeps.
Qed.

End Updating.

End Keeps.

Lemma create_keeps_unique (now : Z) (vendor : Vendor.transient) :
  keeps unique_after (VendorRepository.create now vendor).
Proof.
  intros rows H. unfold VendorRepository.create. case_bool_decide as Hin.
  - exact H.
  - simpl. apply uix_snoc; [exact H|exact Hin].
Qed.

Lemma update_keeps_unique (now id : Z) (vendor_data : Values.t) :
  keeps unique_after (VendorRepository.update now id vendor_data).
Proof.
  intros rows H. unfold VendorRepository.update.
  destruct (mapM _ rows) as [rows'|]; [|exact H].
  case_bool_decide as Hu; simpl; [exact Hu|exact H].
Qed.


Section Invariant.

Variable read_csv : string → string + pd.DataFrame.
Variable validate_email : string → option string.

Lemma run_operation_unique (op : operation) (rows : Table) :
  uix_vendor_tax_id rows →
  uix_vendor_tax_id (run_operation read_csv validate_email op rows).
Proof.
  destruct op; simpl.
  - apply (keeps_create_vendor unique_after create_keeps_unique).
  - apply (keeps_update_vendor unique_after update_keeps_unique).
  - apply (keeps_import_vendors_csv unique_after create_keeps_unique).
Qed.

(** C1. Tax-id uniqueness is an invariant of the reachable states: from
    any table in which no two vendors share a tax id, after any sequence
    of [create_vendor], [update_vendor] and [import_vendors_csv]
    operations, no two distinct rows share a tax id. *)
Theorem tax_id_unique_invariant (ops : list operation) (rows : Table) :
  tax_unique rows → tax_unique (run read_csv validate_email ops rows).
Proof.
  rewrite !tax_unique_uix. revert rows.
  induction ops as [|op ops IH]; intros rows H; simpl.
  - exact H.
  - apply IH. apply run_operation_unique. exact H.
Qed.

End Invariant.

(** ** Looking a tax id up *)

Lemma filter_tax_absent (rows : Table) (t : string) :
  t ∉ Vendor.tax_id <$> rows →
  filter (λ v, Vendor.tax_id v = t) rows = [].
Proof.
  induction rows as [|v rows IH]; intros Hn; [reflexivity|].
  rewrite fmap_cons in Hn. apply not_elem_of_cons in Hn as [Hv Hn].
  rewrite filter_cons_False by congruence. apply IH, Hn.
Qed.

Lemma filter_tax_present (rows : Table) (t : string) :
  uix_vendor_tax_id rows → t ∈ Vendor.tax_id <$> rows →
  ∃ v, filter (λ v, Vendor.tax_id v = t) rows = [v]
       ∧ v ∈ rows ∧ Vendor.tax_id v = t.
Proof.
  unfold uix_vendor_tax_id.
  induction rows as [|v rows IH]; intros Hu Hin.
  - rewrite fmap_nil in Hin. apply elem_of_nil in Hin as [].
  - rewrite fmap_cons in Hu, Hin. apply NoDup_cons in Hu as [Hv Hu].
    destruct (decide (Vendor.tax_id v = t)) as [Ht|Ht].
    + exists v. rewrite filter_cons_True by exact Ht.
      rewrite filter_tax_absent by (rewrite <- Ht; exact Hv).
      split; [reflexivity|]. split; [apply list_elem_of_here|exact Ht].
    + apply elem_of_cons in Hin as [Hin|Hin]; [congruence|].
      destruct (IH Hu Hin) as (w & Hf & Hw & Hwt).
      exists w. rewrite filter_cons_False by exact Ht.
      split; [exact Hf|]. split; [apply list_elem_of_further, Hw|exact Hwt].
Qed.

Lemma get_by_tax_id_absent (rows : Table) (t : string) :
  t ∉ Vendor.tax_id <$> rows →
  VendorRepository.get_by_tax_id t rows = (Ok None, rows).
Proof.
  intros H. unfold VendorRepository.get_by_tax_id.
  rewrite filter_tax_absent by exact H. reflexivity.
Qed.

Lemma get_by_tax_id_present (rows : Table) (t : string) :
  uix_vendor_tax_id rows → t ∈ Vendor.tax_id <$> rows →
  ∃ v, VendorRepository.get_by_tax_id t rows = (Ok (Some v), rows)
       ∧ v ∈ rows ∧ Vendor.tax_id v = t.
Proof.
  intros Hu Hin. destruct (filter_tax_present rows t Hu Hin) as (v & Hf & Hv).
  exists v. unfold VendorRepository.get_by_tax_id. rewrite Hf. auto.
Qed.

(** ** Creating a vendor *)

Lemma create_vendor_among_precheck (others : Table → Table) (now : Z)
    (vendor_data : VendorCreate.t) (rows : Table) :
  uix_vendor_tax_id rows →
  VendorCreate.tax_id vendor_data ∈ Vendor.tax_id <$> rows →
  VendorService.create_vendor_among others now vendor_data rows
  = (Raise (VendorService.duplicate_tax_id (VendorCreate.tax_id vendor_data)),
     rows).
Proof.
  intros Hu Hin. unfold VendorService.create_vendor_among, bind.
  destruct (get_by_tax_id_present rows _ Hu Hin) as (v & -> & _).
  reflexivity.
Qed.

Lemma create_vendor_among_storage (others : Table → Table) (now : Z)
    (vendor_data : VendorCreate.t) (rows : Table) :
  VendorCreate.tax_id vendor_data ∉ Vendor.tax_id <$> rows →
  VendorCreate.tax_id vendor_data ∈ Vendor.tax_id <$> others rows →
  VendorService.create_vendor_among others now vendor_data rows
  = (Raise (VendorService.duplicate_tax_id (VendorCreate.tax_id vendor_data)),
     others rows).
Proof.
  intros Hn Hin. unfold VendorService.create_vendor_among, bind.
  rewrite get_by_tax_id_absent by exact Hn.
  unfold VendorService.suspended, try_except, bind, VendorRepository.create.
  simpl. rewrite bool_decide_eq_true_2 by exact Hin. reflexivity.
Qed.

Lemma create_vendor_among_fresh (others : Table → Table) (now : Z)
    (vendor_data : VendorCreate.t) (rows : Table) :
  VendorCreate.tax_id vendor_data ∉ Vendor.tax_id <$> rows →
  VendorCreate.tax_id vendor_data ∉ Vendor.tax_id <$> others rows →
  let row := Vendor.mk (VendorRepository.next_id (others rows))
               (VendorCreate.name vendor_data) (VendorCreate.tax_id vendor_data)
               (VendorCreate.address vendor_data)
               (VendorCreate.contact_email vendor_data) now now in
  VendorService.create_vendor_among others now vendor_data rows
  = (Ok row, others rows ++ [row]).
Proof.
  intros Hn Hn'. unfold VendorService.create_vendor_among, bind.
  rewrite get_by_tax_id_absent by exact Hn.
  unfold VendorService.suspended, try_except, bind, VendorRepository.create.
  simpl. rewrite bool_decide_eq_false_2 by exact Hn'. reflexivity.
Qed.

(** C2. [create_vendor] fails with the duplicate condition, an
    [HTTPException] of status 400, whenever a vendor with the same tax
    id already exists: when the lookup finds it, before anything is
    written, and when the insert is refused by the uniqueness
    constraint because the vendor arrived between the lookup and the
    flush.  Either way the failed create adds nothing to the table, so
    after two creates with one tax id exactly one row carries it. *)
Theorem create_vendor_duplicate (others : Table → Table) (now : Z)
    (vendor_data : VendorCreate.t) (rows : Table) :
  tax_unique rows →
  let t := VendorCreate.tax_id vendor_data in
  let duplicate : result VendorRead :=
    Raise (HTTPException 400 ("Vendor with tax ID '" +:+ t
                              +:+ "' already exists")) in
  (tax_id_exists t rows →
   VendorService.create_vendor_among others now vendor_data rows
   = (duplicate, rows))
  ∧ (¬ tax_id_exists t rows → tax_id_exists t (others rows) →
     VendorService.create_vendor_among others now vendor_data rows
     = (duplicate, others rows))
  ∧ (¬ tax_id_exists t rows →
     ∀ (now' : Z) (again : VendorCreate.t),
       VendorCreate.tax_id again = t →
       ∃ created rows',
         VendorService.create_vendor now vendor_data rows = (Ok created, rows')
         ∧ VendorService.create_vendor now' again rows' = (duplicate, rows')
         ∧ length (filter (λ v, Vendor.tax_id v = t) rows') = 1%nat).
Proof.
  intros Hu t duplicate. apply tax_unique_uix in Hu.
  rewrite !tax_id_exists_elem. split; [|split].
  - intros Hin. apply create_vendor_among_precheck; assumption.
  - intros Hn Hin. apply create_vendor_among_storage; assumption.
  - intros Hn now' again Ht. unfold VendorService.create_vendor.
    rewrite create_vendor_among_fresh by exact Hn.
    eexists _, _. split; [reflexivity|].
    set (row := Vendor.mk _ _ _ _ _ _ _).
    assert (Hin : t ∈ Vendor.tax_id <$> rows ++ [row]).
    { rewrite fmap_app. apply elem_of_app. right. apply list_elem_of_here. }
    assert (Hu' : uix_vendor_tax_id (rows ++ [row]))
      by (apply uix_snoc; [exact Hu|exact Hn]).
    split.
    + subst duplicate. rewrite <- Ht.
      apply create_vendor_among_precheck; [assumption|rewrite Ht; assumption].
    + destruct (filter_tax_present _ t Hu' Hin) as (v & -> & _). reflexivity.
Qed.

(** ** Updating a vendor *)

Lemma set_values_id (now : Z) (vendor_data : Values.t) (v v' : Vendor.t) :
  VendorRepository.set_values now vendor_data v = Some v' →
  Vendor.id v' = Vendor.id v.
Proof.
  unfold VendorRepository.set_values. intros H.
  destruct (VendorRepository.set_not_null (Vendor.name v) _); [|discriminate H].
  destruct (VendorRepository.set_not_null (Vendor.tax_id v) _);
    [|discriminate H].
  simpl in H. injection H as <-. reflexivity.
Qed.

Lemma mapM_cons_option {A B} (f : A → option B) (x : A) (l : list A) :
  mapM f (x :: l)
  = match f x with
    | Some y => match mapM f l with Some k => Some (y :: k) | None => None end
    | None => None
    end.
Proof. simpl. destruct (f x); [|reflexivity]. simpl. destruct (mapM f l); reflexivity. Qed.

Lemma update_row_match (now id : Z) (vendor_data : Values.t) (v : Vendor.t) :
  Vendor.id v = id →
  update_row now id vendor_data v
  = VendorRepository.set_values now vendor_data v.
Proof. intros H. unfold update_row. rewrite bool_decide_eq_true_2 by exact H. reflexivity. Qed.

Lemma update_row_other (now id : Z) (vendor_data : Values.t) (v : Vendor.t) :
  Vendor.id v ≠ id → update_row now id vendor_data v = Some v.
Proof. intros H. unfold update_row. rewrite bool_decide_eq_false_2 by exact H. reflexivity. Qed.

Lemma mapM_update_no_match (now id : Z) (vendor_data : Values.t)
    (rows : Table) :
  filter (λ v, Vendor.id v = id) rows = [] →
  mapM (update_row now id vendor_data) rows = Some rows.
Proof.
  induction rows as [|v rows IH]; intros Hf; [reflexivity|].
  destruct (decide (Vendor.id v = id)) as [Hv|Hv].
  - rewrite filter_cons_True in Hf by exact Hv. discriminate Hf.
  - rewrite filter_cons_False in Hf by exact Hv.
    rewrite mapM_cons_option, update_row_other by exact Hv.
    rewrite IH by exact Hf. reflexivity.
Qed.

Lemma mapM_update_one (now id : Z) (vendor_data : Values.t)
    (rows rows' : Table) (old : Vendor.t) :
  filter (λ v, Vendor.id v = id) rows = [old] →
  mapM (update_row now id vendor_data) rows = Some rows' →
  ∃ new, VendorRepository.set_values now vendor_data old = Some new
         ∧ rows' = (λ v, if bool_decide (Vendor.id v = id) then new else v)
                   <$> rows
         ∧ filter (λ v, Vendor.id v = id) rows' = [new].
Proof.
  revert rows'. induction rows as [|v rows IH]; intros rows' Hf Hm.
  - discriminate Hf.
  - destruct (decide (Vendor.id v = id)) as [Hv|Hv].
    + rewrite filter_cons_True in Hf by exact Hv. injection Hf as -> Hf.
      rewrite mapM_cons_option, update_row_match in Hm by exact Hv.
      destruct (VendorRepository.set_values now vendor_data old) as [new|] eqn:Hs;
        [|discriminate Hm].
      rewrite (mapM_update_no_match _ _ _ _ Hf) in Hm.
      injection Hm as <-. exists new. split; [reflexivity|].
      pose proof (set_values_id _ _ _ _ Hs) as Hid.
      split.
      * rewrite fmap_cons. rewrite bool_decide_eq_true_2 by exact Hv.
        f_equal. clear - Hf. induction rows as [|w rows IH]; [reflexivity|].
        destruct (decide (Vendor.id w = id)) as [Hw|Hw].
        -- rewrite filter_cons_True in Hf by exact Hw. discriminate Hf.
        -- rewrite filter_cons_False in Hf by exact Hw. rewrite fmap_cons.
           rewrite bool_decide_eq_false_2 by exact Hw. f_equal. apply IH, Hf.
      * rewrite filter_cons_True by congruence. rewrite Hf. reflexivity.
    + rewrite filter_cons_False in Hf by exact Hv.
      rewrite mapM_cons_option, update_row_other in Hm by exact Hv.
      destruct (mapM (update_row now id vendor_data) rows) as [rows1|] eqn:Hr;
        [|discriminate Hm].
      injection Hm as <-.
      destruct (IH rows1 Hf eq_refl) as (new & Hs & -> & Hf').
      exists new. split; [exact Hs|]. split.
      * rewrite fmap_cons. rewrite bool_decide_eq_false_2 by exact Hv.
        reflexivity.
      * rewrite filter_cons_False by exact Hv. exact Hf'.
Qed.

Lemma conflict_check_reads (vendor_id : Z) (vendor_data : VendorUpdate.t)
    (existing_vendor : Vendor.t) (rows : Table) :
  snd (conflict_check vendor_id vendor_data existing_vendor rows) = rows.
Proof.
  unfold conflict_check.
  destruct (VendorUpdate.tax_id vendor_data) as [t|]; [|reflexivity].
  destruct (_ && _); [|reflexivity].
  unfold bind, VendorRepository.get_by_tax_id. simpl.
  destruct (VendorRepository.scalar_one_or_none _) as [[c|]|e]; try reflexivity.
  destruct (negb _); reflexivity.
Qed.

Lemma update_vendor_unfold (now vendor_id : Z) (vendor_data : VendorUpdate.t)
    (rows : Table) :
  VendorService.update_vendor now vendor_id vendor_data rows
  = match VendorRepository.scalar_one_or_none
            (filter (λ v, Vendor.id v = vendor_id) rows) with
    | Raise e => (Raise e, rows)
    | Ok None => (Ok None, rows)
    | Ok (Some existing_vendor) =>
        match fst (conflict_check vendor_id vendor_data existing_vendor rows) with
        | Raise e => (Raise e, rows)
        | Ok _ =>
            VendorRepository.update now vendor_id
              (VendorUpdate.model_dump_exclude_unset vendor_data) rows
        end
    end.
Proof.
  unfold VendorService.update_vendor, bind at 1,
    VendorRepository.get_by_id. simpl.
  destruct (VendorRepository.scalar_one_or_none _) as [[existing|]|e];
    try reflexivity.
  unfold bind at 1. fold (conflict_check vendor_id vendor_data existing).
  pose proof (conflict_check_reads vendor_id vendor_data existing rows) as Hr.
  destruct (conflict_check vendor_id vendor_data existing rows) as [[[]|e] rows1];
    simpl in *; subst rows1; [|reflexivity].
  unfold bind, ret.
  destruct (VendorRepository.update _ _ _ rows) as [[r|e] rows2]; reflexivity.
Qed.

Lemma set_values_fields (now : Z) (vendor_data : Values.t)
    (old new : Vendor.t) :
  VendorRepository.set_values now vendor_data old = Some new →
  Vendor.id new = Vendor.id old
  ∧ Vendor.created_at new = Vendor.created_at old
  ∧ Vendor.updated_at new = now
  ∧ required_field (Vendor.name old) (Vendor.name new) (Values.name vendor_data)
  ∧ required_field (Vendor.tax_id old) (Vendor.tax_id new)
      (Values.tax_id vendor_data)
  ∧ optional_field (Vendor.address old) (Vendor.address new)
      (Values.address vendor_data)
  ∧ optional_field (Vendor.contact_email old) (Vendor.contact_email new)
      (Values.contact_email vendor_data).
Proof.
  unfold VendorRepository.set_values, required_field, optional_field.
  destruct vendor_data as [n t a e]. simpl.
  destruct n as [[n|]|], t as [[t|]|]; simpl; try discriminate;
    intros [= <-]; simpl; repeat split; destruct a, e; reflexivity.
Qed.

(** C4. A partial update that goes through changes, in the one row with
    the given id, only the fields present in the request: a field the
    caller did not supply keeps its previous value, a field supplied
    takes the value supplied, [id] and [created_at] stay, [updated_at]
    is refreshed to the time of the update, and every other row of the
    table is left as it was. *)
Theorem update_vendor_partial (now vendor_id : Z)
    (vendor_data : VendorUpdate.t) (rows rows' : Table)
    (updated : VendorRead) :
  VendorService.update_vendor now vendor_id vendor_data rows
    = (Ok (Some updated), rows') →
  ∃ old,
    VendorRepository.get_by_id vendor_id rows = (Ok (Some old), rows)
    ∧ Vendor.id updated = vendor_id
    ∧ Vendor.created_at updated = Vendor.created_at old
    ∧ Vendor.updated_at updated = now
    ∧ required_field (Vendor.name old) (Vendor.name updated)
        (Values.name (VendorUpdate.fields_set vendor_data))
    ∧ required_field (Vendor.tax_id old) (Vendor.tax_id updated)
        (Values.tax_id (VendorUpdate.fields_set vendor_data))
    ∧ optional_field (Vendor.address old) (Vendor.address updated)
        (Values.address (VendorUpdate.fields_set vendor_data))
    ∧ optional_field (Vendor.contact_email old) (Vendor.contact_email updated)
        (Values.contact_email (VendorUpdate.fields_set vendor_data))
    ∧ rows' = (λ v, if bool_decide (Vendor.id v = vendor_id)
                     then updated else v) <$> rows.
Proof.
  rewrite update_vendor_unfold. unfold VendorRepository.get_by_id.
  destruct (filter (λ v, Vendor.id v = vendor_id) rows)
    as [|old [|other rest]] eqn:Hf; simpl; try discriminate.
  destruct (fst (conflict_check vendor_id vendor_data old rows));
    [|discriminate].
  unfold VendorRepository.update. fold (update_row now vendor_id
    (VendorUpdate.model_dump_exclude_unset vendor_data)).
  destruct (mapM _ rows) as [rows1|] eqn:Hm; [|discriminate].
  destruct (mapM_update_one _ _ _ _ _ _ Hf Hm) as (new & Hs & -> & Hf1).
  case_bool_decide; [|discriminate].
  rewrite Hf1. simpl. intros [= <- <-].
  assert (Hid : Vendor.id old = vendor_id).
  { assert (Hin : old ∈ filter (λ v, Vendor.id v = vendor_id) rows)
      by (rewrite Hf; apply list_elem_of_here).
    apply list_elem_of_filter in Hin as [Hin _]. exact Hin. }
  destruct (set_values_fields _ _ _ _ Hs) as (H1 & H2 & H3 & H4 & H5 & H6 & H7).
  exists old. repeat split; try assumption. congruence.
Qed.

Lemma conflict_check_raises (vendor_id : Z) (vendor_data : VendorUpdate.t)
    (old : Vendor.t) (rows : Table) (e : exn) :
  uix_vendor_tax_id rows →
  fst (conflict_check vendor_id vendor_data old rows) = Raise e
  ↔ ∃ t, e = VendorService.duplicate_tax_id t
         ∧ VendorUpdate.tax_id vendor_data = Some t
         ∧ t ≠ "" ∧ t ≠ Vendor.tax_id old
         ∧ ∃ other, other ∈ rows ∧ Vendor.id other ≠ vendor_id
                    ∧ Vendor.tax_id other = t.
Proof.
  intros Hu. unfold conflict_check.
  destruct (VendorUpdate.tax_id vendor_data) as [t|].
  2:{ simpl. split; [discriminate|]. intros (t & _ & [=] & _). }
  destruct (Py.truthy t) eqn:Htr; simpl.
  2:{ split; [discriminate|]. intros (t' & _ & [= <-] & Hne & _).
      apply truthy_nonempty in Hne. congruence. }
  destruct (String.eqb_spec t (Vendor.tax_id old)) as [Heq|Hneq]; simpl.
  { split; [discriminate|]. intros (t' & _ & [= <-] & _ & Hne & _).
    congruence. }
  apply truthy_nonempty in Htr. unfold bind.
  destruct (decide (t ∈ Vendor.tax_id <$> rows)) as [Hin|Hin].
  - destruct (filter_tax_present rows t Hu Hin) as (c & Hf & Hc & Hct).
    unfold VendorRepository.get_by_tax_id. rewrite Hf. simpl.
    destruct (Z.eqb_spec (Vendor.id c) vendor_id) as [Hid|Hid]; simpl.
    + split; [discriminate|].
      intros (t' & _ & [= <-] & _ & _ & other & Ho & Hoid & Hot).
      assert (Hoc : other ∈ filter (λ v, Vendor.tax_id v = t) rows)
        by (apply list_elem_of_filter; auto).
      rewrite Hf in Hoc. apply list_elem_of_singleton in Hoc. congruence.
    + split.
      * intros [= <-]. exists t. repeat split; try assumption.
        exists c. auto.
      * intros (t' & -> & [= <-] & _). reflexivity.
  - rewrite get_by_tax_id_absent by exact Hin. simpl.
    split; [discriminate|].
    intros (t' & _ & [= <-] & _ & _ & other & Ho & _ & Hot).
    exfalso. apply Hin. apply list_elem_of_fmap. exists other. auto.
Qed.

(** For tax ids that are not empty the update does what the
    specification says: it raises the duplicate condition exactly when
    the payload carries a tax id, other than the vendor's own, that a
    different vendor owns, and then leaves the table untouched. *)
Lemma update_vendor_duplicate_iff (now vendor_id : Z)
    (vendor_data : VendorUpdate.t) (rows : Table) (old : Vendor.t) :
  tax_unique rows →
  VendorRepository.get_by_id vendor_id rows = (Ok (Some old), rows) →
  (∃ detail rows',
     VendorService.update_vendor now vendor_id vendor_data rows
     = (Raise (HTTPException 400 detail), rows'))
  ↔ ∃ t, VendorUpdate.tax_id vendor_data = Some t
         ∧ t ≠ "" ∧ t ≠ Vendor.tax_id old
         ∧ (∃ other, other ∈ rows ∧ Vendor.id other ≠ vendor_id
                     ∧ Vendor.tax_id other = t)
         ∧ VendorService.update_vendor now vendor_id vendor_data rows
           = (Raise (VendorService.duplicate_tax_id t), rows).
Proof.
  intros Hu Hg. apply tax_unique_uix in Hu.
  rewrite update_vendor_unfold. unfold VendorRepository.get_by_id in Hg.
  injection Hg as Hg. rewrite Hg.
  pose proof (conflict_check_raises vendor_id vendor_data old rows) as Hc.
  destruct (fst (conflict_check vendor_id vendor_data old rows)) as [[]|e].
  - split.
    + intros (detail & rows' & H). exfalso.
      unfold VendorRepository.update in H.
      destruct (mapM _ rows) as [rows1|]; [|discriminate H].
      case_bool_decide; [|discriminate H].
      destruct (filter _ rows1) as [|? [|? ?]]; simpl in H; discriminate H.
    + intros (t & Ht & Hne & Hold & Hother & _). exfalso.
      assert (Hr : @Ok unit () = Raise (VendorService.duplicate_tax_id t));
        [|discriminate Hr].
      apply (Hc _ Hu). exists t. auto.
  - destruct (proj1 (Hc e Hu) eq_refl) as (t & -> & Ht & Hne & Hold & Hother).
    split.
    + intros _. exists t. auto.
    + intros _. eexists _, rows. reflexivity.
Qed.

(** C3 (the code departs from it). Two creates build a table in which
    vendor 2 owns the tax id [""]; updating vendor 1, whose tax id is
    ["T-1"], with [tax_id=""] names a tax id different from its own that
    another vendor owns, yet the service skips the conflict check (the
    empty string is false in a condition) and the repository's
    [IntegrityError] comes out unconverted instead of the duplicate
    condition.  The table stays as it was. *)
Theorem update_vendor_empty_tax_id :
  snd (VendorService.create_vendor 0 (VendorCreate.mk "Blank" "" None None)
         (snd (VendorService.create_vendor 0
                 (VendorCreate.mk "Acme" "T-1" None None) [])))
    = [acme; blank_tax]
  ∧ VendorUpdate.tax_id (set_tax_id "") = Some ""
  ∧ "" ≠ Vendor.tax_id acme
  ∧ Vendor.tax_id blank_tax = "" ∧ Vendor.id blank_tax ≠ 1
  ∧ VendorService.update_vendor 7 1 (set_tax_id "") [acme; blank_tax]
    = (Raise IntegrityError, [acme; blank_tax]).
Proof. repeat split; try reflexivity; discriminate. Qed.

Example update_vendor_taken_tax_id :
  VendorService.update_vendor 7 2 (set_tax_id "T-1") [acme; blank_tax]
  = (Raise (HTTPException 400 "Vendor with tax ID 'T-1' already exists"),
     [acme; blank_tax]).
Proof. reflexivity. Qed.

Example update_vendor_own_tax_id :
  VendorService.update_vendor 7 1 (set_tax_id "T-1") [acme; blank_tax]
  = (Ok (Some (Vendor.mk 1 "Acme" "T-1" None None 0 7)),
     [Vendor.mk 1 "Acme" "T-1" None None 0 7; blank_tax]).
Proof. reflexivity. Qed.


(** ** CSV import *)

Section ImportRows.

Variable read_csv : string → string + pd.DataFrame.
Variable validate_email : string → option string.

Lemma import_row_fresh (now row_num : Z) (row : pd.Series)
    (d : VendorCreate.t) (rows : Table) :
  well_formed_row validate_email row d →
  VendorCreate.tax_id d ∉ Vendor.tax_id <$> rows →
  let created := Vendor.mk (VendorRepository.next_id rows)
                   (VendorCreate.name d) (VendorCreate.tax_id d)
                   (VendorCreate.address d) (VendorCreate.contact_email d)
                   now now in
  VendorService.import_row validate_email now row_num row rows
  = (Ok None, rows ++ [created]).
Proof.
  intros (Hd & Hn & Ht) Hfresh. unfold VendorService.import_row.
  fold (row_vendor_data validate_email row). rewrite Hd.
  unfold try_except, bind at 1, lift. rewrite Hn, Ht. simpl.
  unfold bind at 1. rewrite get_by_tax_id_absent by exact Hfresh.
  unfold bind at 1, VendorService.create_vendor.
  rewrite create_vendor_among_fresh by exact Hfresh. reflexivity.
Qed.



Lemma import_rows_cons (now idx : Z) (row : pd.Series)
    (rest : list pd.Series) (success_count : Z)
    (errors : list ImportError.t) (rows : Table) :
  VendorService.import_rows validate_email now idx (row :: rest)
    success_count errors rows
  = match VendorService.import_row validate_email now (idx + 2) row rows with
    | (Ok None, rows') =>
        VendorService.import_rows validate_email now (idx + 1) rest
          (success_count + 1) errors rows'
    | (Ok (Some err), rows') =>
        VendorService.import_rows validate_email now (idx + 1) rest
          success_count (errors ++ [err]) rows'
    | (Raise e, rows') => (Raise e, rows')
    end.
Proof.
  simpl. unfold bind.
  destruct (VendorService.import_row _ _ _ _ rows) as [[[err|]|e] rows'];
    reflexivity.
Qed.





End ImportRows.


(** ** The change feed *)




Lemma search_clamps_like_search (search_params : VendorSearchParams.t) :
  clamps_like_search (VendorService.search_vendors_paged search_params).
Proof.
  intros page page_size rows.
  destruct (search_vendors_paged_answer search_params page page_size rows)
    as (r & Hr & _ & _ & _ & _ & Heq).
  split.
  - exists r. rewrite Hr. reflexivity.
  - rewrite clamp_page_max, clamp_page_size_range. exact Heq.
Qed.



(** ** Webhook delivery *)



Example send_webhook_notification_unreachable :
  fst (IntegrationService.send_webhook_notification
         (configured "https://example.test/hook") unreachable
         IntegrationService.VENDOR_DELETED [])
  = Ok false.
Proof. reflexivity. Qed.

Example send_webhook_notification_not_configured :
  fst (IntegrationService.send_webhook_notification
         (IntegrationService.mk None 30 false) unreachable
         IntegrationService.VENDOR_DELETED [])
  = Ok true.
Proof. reflexivity. Qed.

(** ** Instances *)

Lemma tax_unique_decide (rows : Table) :
  bool_decide (uix_vendor_tax_id rows) = true → tax_unique rows.
Proof. intros H. apply tax_unique_uix. exact (bool_decide_eq_true_1 _ H). Qed.

Lemma tax_id_fresh_decide (t : string) (rows : Table) :
  bool_decide (t ∈ Vendor.tax_id <$> rows) = false → ¬ tax_id_exists t rows.
Proof.
  intros H. rewrite tax_id_exists_elem. exact (bool_decide_eq_false_1 _ H).
Qed.

Lemma tax_id_taken_decide (t : string) (rows : Table) :
  bool_decide (t ∈ Vendor.tax_id <$> rows) = true → tax_id_exists t rows.
Proof.
  intros H. rewrite tax_id_exists_elem. exact (bool_decide_eq_true_1 _ H).
Qed.

Lemma tax_id_unique_invariant_witness :
  tax_unique
    (run sample_read_csv sample_validate_email
       [CreateVendor 1 (VendorCreate.mk "Dup" "T-1" None None);
        CreateVendor 2 (VendorCreate.mk "Blank" "" None None);
        UpdateVendor 3 1 (set_tax_id "");
        ImportVendorsCsv 4 "name,tax_id,address,contact_email";
        UpdateVendor 5 3 (set_tax_id "T-1")]
       [acme]).
Proof.
  apply tax_id_unique_invariant. apply tax_unique_decide. reflexivity.
Defined.

Lemma create_vendor_duplicate_witness :
  VendorService.create_vendor 5 (VendorCreate.mk "Other" "T-1" None None) [acme]
  = (Raise (HTTPException 400 "Vendor with tax ID 'T-1' already exists"),
     [acme]).
Proof.
  destruct (create_vendor_duplicate (λ rows, rows) 5
              (VendorCreate.mk "Other" "T-1" None None) [acme])
    as (Hfound & _ & _).
  - apply tax_unique_decide. reflexivity.
  - apply Hfound. apply tax_id_taken_decide. reflexivity.
Defined.

Lemma update_vendor_partial_witness :
  ∃ old,
    VendorRepository.get_by_id 1 [acme; blank_tax] = (Ok (Some old), [acme; blank_tax])
    ∧ Vendor.name old = "Acme"
    ∧ optional_field (Vendor.address old) (Some "1 Main St")
        (Some (Some "1 Main St")).
Proof.
  destruct (update_vendor_partial 7 1
              (VendorUpdate.mk
                 (Values.mk None None (Some (Some "1 Main St")) None))
              [acme; blank_tax]
              [Vendor.mk 1 "Acme" "T-1" (Some "1 Main St") None 0 7; blank_tax]
              (Vendor.mk 1 "Acme" "T-1" (Some "1 Main St") None 0 7)
              eq_refl)
    as (old & Hg & _ & _ & _ & Hn & _ & Ha & _).
  exists old. split; [exact Hg|]. split; [symmetry; exact Hn|exact Ha].
Defined.





(** * Further properties of the code *)

(** ** Lookups and deletes *)

Lemma filter_id_absent (rows : Table) (id : Z) :
  (∀ v, v ∈ rows → Vendor.id v ≠ id) ↔
  filter (λ v, Vendor.id v = id) rows = [].
Proof.
  split.
  - intros H. induction rows as [|v rows IH]; [reflexivity|].
    rewrite filter_cons_False by (apply H, list_elem_of_here).
    apply IH. intros w Hw. apply H, list_elem_of_further, Hw.
  - intros Hf v Hv Hid.
    assert (Hin : v ∈ filter (λ v, Vendor.id v = id) rows)
      by (apply list_elem_of_filter; auto).
    rewrite Hf in Hin. apply elem_of_nil in Hin as [].
Qed.

Lemma filter_id_present (rows : Table) (v : Vendor.t) :
  pk_vendor_id rows → v ∈ rows →
  filter (λ w, Vendor.id w = Vendor.id v) rows = [v].
Proof.
  unfold pk_vendor_id. induction rows as [|w rows IH]; intros Hpk Hin.
  - apply elem_of_nil in Hin as [].
  - rewrite fmap_cons in Hpk. apply NoDup_cons in Hpk as [Hw Hpk].
    apply elem_of_cons in Hin as [<-|Hin].
    + rewrite filter_cons_True by reflexivity. f_equal.
      apply filter_id_absent. intros u Hu Heq. apply Hw.
      rewrite <- Heq. apply list_elem_of_fmap. exists u. auto.
    + rewrite filter_cons_False; [apply IH; assumption|].
      intros Heq. apply Hw. rewrite Heq.
      apply list_elem_of_fmap. exists v. auto.
Qed.





Lemma next_id_above (rows : Table) (v : Vendor.t) :
  v ∈ rows → Vendor.id v < VendorRepository.next_id rows.
Proof.
  unfold VendorRepository.next_id. induction rows as [|w rows IH]; intros Hin.
  - apply elem_of_nil in Hin as [].
  - rewrite fmap_cons. simpl. apply elem_of_cons in Hin as [->|Hin]; [lia|].
    specialize (IH Hin). lia.
Qed.

Lemma filter_tax_absent_inv (rows : Table) (t : string) :
  filter (λ v, Vendor.tax_id v = t) rows = [] → t ∉ Vendor.tax_id <$> rows.
Proof.
  intros Hf Hin. apply list_elem_of_fmap in Hin as (v & -> & Hv).
  assert (Hvf : v ∈ filter (λ w, Vendor.tax_id w = Vendor.tax_id v) rows)
    by (apply list_elem_of_filter; auto).
  rewrite Hf in Hvf. apply elem_of_nil in Hvf as [].
Qed.

(** What a [create_vendor] that returns has done. *)
Lemma create_vendor_success (now : Z) (vendor_data : VendorCreate.t)
    (rows rows' : Table) (created : VendorRead) :
  VendorService.create_vendor now vendor_data rows = (Ok created, rows') →
  (VendorCreate.tax_id vendor_data ∉ Vendor.tax_id <$> rows)
  ∧ created = Vendor.mk (VendorRepository.next_id rows)
                (VendorCreate.name vendor_data)
                (VendorCreate.tax_id vendor_data)
                (VendorCreate.address vendor_data)
                (VendorCreate.contact_email vendor_data) now now
  ∧ rows' = rows ++ [created].
Proof.
  unfold VendorService.create_vendor, VendorService.create_vendor_among,
    bind at 1, VendorRepository.get_by_tax_id.
  destruct (filter _ rows) as [|w [|w' l]] eqn:Hf; simpl; try discriminate.
  apply filter_tax_absent_inv in Hf.
  unfold VendorService.suspended, try_except, bind, VendorRepository.create.
  simpl. rewrite bool_decide_eq_false_2 by exact Hf. simpl.
  intros [= <- <-]. auto.
Qed.

(** A vendor that [create_vendor] returns is stored under an id greater
    than every id in the table, with both timestamps set to the time of
    the insert and the fields as given, and can be read back by that id
    and by its tax id. *)
Theorem create_vendor_then_lookup (now : Z) (vendor_data : VendorCreate.t)
    (rows rows' : Table) (created : VendorRead) :
  VendorService.create_vendor now vendor_data rows = (Ok created, rows') →
  rows' = rows ++ [created]
  ∧ (∀ v, v ∈ rows → Vendor.id v < Vendor.id created)
  ∧ Vendor.name created = VendorCreate.name vendor_data
  ∧ Vendor.tax_id created = VendorCreate.tax_id vendor_data
  ∧ Vendor.address created = VendorCreate.address vendor_data
  ∧ Vendor.contact_email created = VendorCreate.contact_email vendor_data
  ∧ Vendor.created_at created = now ∧ Vendor.updated_at created = now
  ∧ VendorService.get_vendor_by_id (Vendor.id created) rows'
    = (Ok (Some created), rows')
  ∧ VendorRepository.get_by_tax_id (VendorCreate.tax_id vendor_data) rows'
    = (Ok (Some created), rows').
Proof.
  intros H. apply create_vendor_success in H as (Hfresh & -> & ->).
  set (created := Vendor.mk _ _ _ _ _ _ _).
  split; [reflexivity|]. split; [intros v Hv; apply next_id_above, Hv|].
  do 6 (split; [reflexivity|]). split.
  - unfold VendorService.get_vendor_by_id, bind, ret, VendorRepository.get_by_id.
    rewrite filter_app.
    rewrite (proj1 (filter_id_absent rows (Vendor.id created))).
    + rewrite filter_cons_True by reflexivity. reflexivity.
    + intros v Hv. pose proof (next_id_above rows v Hv). simpl. lia.
  - unfold VendorRepository.get_by_tax_id. rewrite filter_app.
    rewrite filter_tax_absent by exact Hfresh.
    rewrite filter_cons_True by reflexivity. reflexivity.
Qed.

(** ** Both constraints, with deletes *)

Global Instance unique_ids_after_preorder : PreOrder unique_ids_after.
Proof.
  split.
  - intros rows H. exact H.
  - intros a b c Hab Hbc H. exact (Hbc (Hab H)).
Qed.

Lemma create_keeps_ids (now : Z) (vendor : Vendor.transient) :
  keeps unique_ids_after (VendorRepository.create now vendor).
Proof.
  intros rows H. unfold VendorRepository.create. case_bool_decide; [exact H|].
  simpl. unfold pk_vendor_id in *. rewrite fmap_app. simpl.
  apply NoDup_app. split; [exact H|]. split; [|apply NoDup_singleton].
  intros i Hi Hs. apply list_elem_of_singleton in Hs. subst i.
  apply list_elem_of_fmap in Hi as (v & Heq & Hv).
  pose proof (next_id_above rows v Hv). lia.
Qed.

Lemma mapM_update_ids (now id : Z) (vendor_data : Values.t)
    (rows rows' : Table) :
  mapM (update_row now id vendor_data) rows = Some rows' →
  Vendor.id <$> rows' = Vendor.id <$> rows.
Proof.
  revert rows'. induction rows as [|v rows IH]; intros rows' Hm.
  - injection Hm as <-. reflexivity.
  - rewrite mapM_cons_option in Hm.
    destruct (update_row now id vendor_data v) as [v'|] eqn:Hv;
      [|discriminate Hm].
    destruct (mapM _ rows) as [rows1|]; [|discriminate Hm].
    injection Hm as <-. rewrite !fmap_cons, (IH rows1 eq_refl). f_equal.
    unfold update_row in Hv. case_bool_decide.
    + exact (set_values_id _ _ _ _ Hv).
    + injection Hv as <-. reflexivity.
Qed.

Lemma update_keeps_ids (now id : Z) (vendor_data : Values.t) :
  keeps unique_ids_after (VendorRepository.update now id vendor_data).
Proof.
  intros rows H. unfold VendorRepository.update.
  fold (update_row now id vendor_data).
  destruct (mapM _ rows) as [rows'|] eqn:Hm; [|exact H].
  case_bool_decide; simpl; [|exact H].
  unfold pk_vendor_id. rewrite (mapM_update_ids _ _ _ _ _ Hm). exact H.
Qed.

Lemma delete_keeps_constraints (vendor_id : Z) (rows : Table) :
  (pk_vendor_id rows →
   pk_vendor_id (snd (VendorService.delete_vendor vendor_id rows)))
  ∧ (uix_vendor_tax_id rows →
     uix_vendor_tax_id (snd (VendorService.delete_vendor vendor_id rows))).
Proof.
  unfold VendorService.delete_vendor, VendorRepository.delete,
    pk_vendor_id, uix_vendor_tax_id. simpl.
  split; intros H; eapply sublist_NoDup; try exact H;
    apply fmap_sublist, sublist_filter.
Qed.

Section Constraints.

Variable read_csv : string → string + pd.DataFrame.
Variable validate_email : string → option string.

Lemma run_operation_ids (op : operation) (rows : Table) :
  pk_vendor_id rows →
  pk_vendor_id (run_operation read_csv validate_email op rows).
Proof.
  destruct op; simpl.
  - apply (keeps_create_vendor unique_ids_after create_keeps_ids).
  - apply (keeps_update_vendor unique_ids_after update_keeps_ids).
  - apply (keeps_import_vendors_csv unique_ids_after create_keeps_ids).
Qed.

(** From a table in which ids are distinct and tax ids are distinct,
    any sequence of creates, updates, imports and deletes leads to a
    table in which both still are. *)
Theorem constraints_invariant (reqs : list request) (rows : Table) :
  pk_vendor_id rows → tax_unique rows →
  pk_vendor_id (serve read_csv validate_email reqs rows)
  ∧ tax_unique (serve read_csv validate_email reqs rows).
Proof.
  rewrite !tax_unique_uix. revert rows.
  induction reqs as [|req reqs IH]; intros rows Hpk Hu; simpl; [auto|].
  apply IH; destruct req as [op|vendor_id]; simpl.
  - apply run_operation_ids, Hpk.
  - apply delete_keeps_constraints, Hpk.
  - apply run_operation_unique, Hu.
  - apply delete_keeps_constraints, Hu.
Qed.

End Constraints.

(** ** Updates that fail, and updates that go through *)

Lemma mapM_update_eq (now id : Z) (vendor_data : Values.t) (rows : Table)
    (old : Vendor.t) :
  filter (λ v, Vendor.id v = id) rows = [old] →
  mapM (update_row now id vendor_data) rows
  = match VendorRepository.set_values now vendor_data old with
    | Some new => Some (replaced id new rows)
    | None => None
    end.
Proof.
  intros Hf.
  destruct (VendorRepository.set_values now vendor_data old) as [new|] eqn:Hs.
  - destruct (mapM (update_row now id vendor_data) rows) as [rows'|] eqn:Hm.
    + destruct (mapM_update_one _ _ _ _ _ _ Hf Hm) as (new' & Hs' & -> & _).
      assert (new' = new) as -> by congruence. reflexivity.
    + exfalso. induction rows as [|v rows IH]; [discriminate Hf|].
      rewrite mapM_cons_option in Hm.
      destruct (decide (Vendor.id v = id)) as [Hv|Hv].
      * rewrite filter_cons_True in Hf by exact Hv. injection Hf as -> Hf.
        rewrite update_row_match in Hm by exact Hv.
        rewrite (mapM_update_no_match _ _ _ _ Hf), Hs in Hm.
        discriminate Hm.
      * rewrite filter_cons_False in Hf by exact Hv.
        rewrite update_row_other in Hm by exact Hv.
        destruct (mapM (update_row now id vendor_data) rows);
          [discriminate Hm|]. exact (IH Hf eq_refl).
  - induction rows as [|v rows IH]; [discriminate Hf|].
    rewrite mapM_cons_option.
    destruct (decide (Vendor.id v = id)) as [Hv|Hv].
    + rewrite filter_cons_True in Hf by exact Hv. injection Hf as -> Hf.
      rewrite update_row_match by exact Hv. rewrite Hs. reflexivity.
    + rewrite filter_cons_False in Hf by exact Hv.
      rewrite update_row_other by exact Hv. rewrite (IH Hf). reflexivity.
Qed.

(** The repository's UPDATE, for an id that exactly one row carries. *)
Lemma repository_update_eq (now id : Z) (vendor_data : Values.t)
    (rows : Table) (old : Vendor.t) :
  filter (λ v, Vendor.id v = id) rows = [old] →
  VendorRepository.update now id vendor_data rows
  = match VendorRepository.set_values now vendor_data old with
    | Some new =>
        if bool_decide (uix_vendor_tax_id (replaced id new rows))
        then (Ok (Some new), replaced id new rows)
        else (Raise IntegrityError, rows)
    | None => (Raise IntegrityError, rows)
    end.
Proof.
  intros Hf. unfold VendorRepository.update.
  fold (update_row now id vendor_data).
  rewrite (mapM_update_eq _ _ _ _ _ Hf).
  destruct (VendorRepository.set_values now vendor_data old) as [new|] eqn:Hs;
    [|reflexivity].
  case_bool_decide; [|reflexivity].
  destruct (mapM_update_one now id vendor_data rows (replaced id new rows) old
              Hf) as (new' & Hs' & _ & ->).
  - rewrite (mapM_update_eq _ _ _ _ _ Hf), Hs. reflexivity.
  - replace new' with new by congruence. reflexivity.
Qed.


Lemma get_by_id_found (id : Z) (rows : Table) (old : Vendor.t) :
  VendorRepository.get_by_id id rows = (Ok (Some old), rows) →
  filter (λ v, Vendor.id v = id) rows = [old].
Proof.
  unfold VendorRepository.get_by_id.
  destruct (filter _ rows) as [|v [|w l]]; simpl; intros [=]. congruence.
Qed.

(** An update that sets [name] or [tax_id] to null explicitly never goes
    through: for a vendor that exists it raises, and the table is as it
    was. *)
Theorem update_vendor_null_required (now vendor_id : Z)
    (vendor_data : VendorUpdate.t) (rows : Table) (old : Vendor.t) :
  VendorRepository.get_by_id vendor_id rows = (Ok (Some old), rows) →
  Values.name (VendorUpdate.fields_set vendor_data) = Some None
  ∨ Values.tax_id (VendorUpdate.fields_set vendor_data) = Some None →
  ∃ e, VendorService.update_vendor now vendor_id vendor_data rows
       = (Raise e, rows).
Proof.
  intros Hg Hnull. apply get_by_id_found in Hg.
  rewrite update_vendor_unfold, Hg. simpl.
  destruct (fst (conflict_check vendor_id vendor_data old rows)); [|eauto].
  rewrite (repository_update_eq _ _ _ _ _ Hg).
  assert (Hs : VendorRepository.set_values now
                 (VendorUpdate.model_dump_exclude_unset vendor_data) old
               = None).
  { unfold VendorRepository.set_values, VendorUpdate.model_dump_exclude_unset.
    destruct Hnull as [-> | ->]; simpl; [reflexivity|].
    destruct (VendorRepository.set_not_null _ _); reflexivity. }
  rewrite Hs. eauto.
Qed.

Lemma replaced_split (new old : Vendor.t) (l1 l2 : Table) :
  pk_vendor_id (l1 ++ old :: l2) →
  replaced (Vendor.id old) new (l1 ++ old :: l2) = l1 ++ new :: l2.
Proof.
  unfold pk_vendor_id, replaced. rewrite !fmap_app, !fmap_cons.
  intros Hpk. apply NoDup_app in Hpk as (_ & H1 & H2).
  apply NoDup_cons in H2 as [H2 _].
  rewrite bool_decide_eq_true_2 by reflexivity.
  assert (Hkeep : ∀ l : Table, Vendor.id old ∉ Vendor.id <$> l →
            (λ v, if bool_decide (Vendor.id v = Vendor.id old) then new else v)
              <$> l = l).
  { induction l as [|v l IH]; intros Hn; [reflexivity|].
    rewrite fmap_cons in Hn. apply not_elem_of_cons in Hn as [Hv Hn].
    rewrite fmap_cons, bool_decide_eq_false_2 by congruence.
    rewrite IH by exact Hn. reflexivity. }
  rewrite !Hkeep; [reflexivity|exact H2|].
  intros Hin. apply (H1 _ Hin). apply list_elem_of_here.
Qed.

(** When an update goes through: the vendor exists, the payload nulls
    neither [name] nor [tax_id], and the tax id it carries, if any, is
    owned by no other vendor.  Then [update_vendor] returns the updated
    vendor and puts it in the old one's place. *)
Theorem update_vendor_succeeds (now : Z) (vendor_data : VendorUpdate.t)
    (rows : Table) (old : Vendor.t) :
  pk_vendor_id rows → tax_unique rows → old ∈ rows →
  Values.name (VendorUpdate.fields_set vendor_data) ≠ Some None →
  Values.tax_id (VendorUpdate.fields_set vendor_data) ≠ Some None →
  (∀ t other,
     Values.tax_id (VendorUpdate.fields_set vendor_data) = Some (Some t) →
     other ∈ rows → Vendor.tax_id other = t →
     Vendor.id other = Vendor.id old) →
  ∃ updated,
    VendorRepository.set_values now (VendorUpdate.fields_set vendor_data) old
      = Some updated
    ∧ VendorService.update_vendor now (Vendor.id old) vendor_data rows
      = (Ok (Some updated), replaced (Vendor.id old) updated rows).
Proof.
  intros Hpk Hu Hold Hname Htax Hfree. apply tax_unique_uix in Hu.
  pose proof (filter_id_present rows old Hpk Hold) as Hf.
  assert (Hs : ∃ updated,
    VendorRepository.set_values now (VendorUpdate.fields_set vendor_data) old
    = Some updated
    ∧ (Vendor.tax_id updated = Vendor.tax_id old
       ∨ Values.tax_id (VendorUpdate.fields_set vendor_data)
         = Some (Some (Vendor.tax_id updated)))).
  { unfold VendorRepository.set_values.
    destruct (Values.name (VendorUpdate.fields_set vendor_data))
      as [[n|]|]; [|congruence|];
    destruct (Values.tax_id (VendorUpdate.fields_set vendor_data))
      as [[t|]|]; try congruence; simpl; eexists; split; try reflexivity;
      simpl; auto. }
  destruct Hs as (updated & Hs & Hut). exists updated. split; [exact Hs|].
  rewrite update_vendor_unfold, Hf. simpl.
  destruct (fst (conflict_check (Vendor.id old) vendor_data old rows))
    as [[]|e] eqn:Hc.
  2:{ exfalso.
      apply (conflict_check_raises _ _ _ _ _ Hu) in Hc
        as (t & _ & Ht & _ & _ & other & Ho & Hoid & Hot).
      apply Hoid. apply (Hfree t other); [|exact Ho|exact Hot].
      unfold VendorUpdate.tax_id in Ht.
      destruct (Values.tax_id (VendorUpdate.fields_set vendor_data))
        as [[t'|]|]; simpl in Ht; congruence. }
  rewrite (repository_update_eq _ _ _ _ _ Hf).
  unfold VendorUpdate.model_dump_exclude_unset. rewrite Hs.
  rewrite bool_decide_eq_true_2; [reflexivity|].
  destruct (list_elem_of_split rows old Hold) as (l1 & l2 & ->).
  rewrite replaced_split by exact Hpk.
  unfold uix_vendor_tax_id, pk_vendor_id in *.
  rewrite !fmap_app, !fmap_cons in *.
  apply NoDup_app in Hu as (Hu1 & Hu12 & Hu2).
  apply NoDup_cons in Hu2 as [Hu2 Hu3].
  apply NoDup_app in Hpk as (_ & Hp12 & Hp2).
  apply NoDup_cons in Hp2 as [Hp2 _].
  assert (Hn1 : Vendor.tax_id updated ∉ Vendor.tax_id <$> l1).
  { intros Hin. destruct Hut as [Heq|Heq].
    - rewrite Heq in Hin. apply (Hu12 _ Hin). apply list_elem_of_here.
    - apply list_elem_of_fmap in Hin as (other & Hot & Ho).
      assert (Hid : Vendor.id other = Vendor.id old).
      { apply (Hfree _ other Heq); [|congruence].
        apply elem_of_app. auto. }
      apply (Hp12 (Vendor.id old)); [|apply list_elem_of_here].
      rewrite <- Hid. apply list_elem_of_fmap. exists other. auto. }
  assert (Hn2 : Vendor.tax_id updated ∉ Vendor.tax_id <$> l2).
  { intros Hin. destruct Hut as [Heq|Heq].
    - rewrite Heq in Hin. exact (Hu2 Hin).
    - apply list_elem_of_fmap in Hin as (other & Hot & Ho).
      assert (Hid : Vendor.id other = Vendor.id old).
      { apply (Hfree _ other Heq); [|congruence].
        apply elem_of_app. right. apply list_elem_of_further, Ho. }
      apply Hp2. rewrite <- Hid. apply list_elem_of_fmap. exists other. auto. }
  apply NoDup_app. split; [exact Hu1|]. split.
  - intros t Ht Hin. apply elem_of_cons in Hin as [->|Hin].
    + exact (Hn1 Ht).
    + apply (Hu12 _ Ht). apply list_elem_of_further, Hin.
  - apply NoDup_cons. split; [exact Hn2|exact Hu3].
Qed.

(** ** Pages of a search *)

Global Instance id_le_transitive : Transitive VendorRepository.id_le.
Proof. intros a b c. unfold VendorRepository.id_le. lia. Qed.

Global Instance id_le_total : Total VendorRepository.id_le.
Proof. intros a b. unfold VendorRepository.id_le. lia. Qed.







(** ** Filters combined with OR *)

Lemma condition_widens (col : Vendor.t → option string)
    (f f' : option string) (v : Vendor.t) :
  widens f f' →
  existsb (λ c, c v) (VendorRepository.condition col f) = true →
  existsb (λ c, c v) (VendorRepository.condition col f') = true.
Proof.
  intros [->|Hf]; [auto|].
  unfold VendorRepository.condition at 1.
  destruct f as [s|]; simpl in *; [rewrite Hf|]; discriminate.
Qed.

Lemma existsb_where (conds : list (Vendor.t → bool)) (v : Vendor.t) :
  existsb (λ c, c v) conds = true → VendorRepository.where_ conds v = true.
Proof. destruct conds; simpl; auto. Qed.

Lemma filter_length_mono {A} (f g : A → bool) (l : list A) :
  (∀ x, f x = true → g x = true) →
  (length (List.filter f l) ≤ length (List.filter g l))%nat.
Proof.
  intros H. induction l as [|x l IH]; simpl; [lia|].
  destruct (f x) eqn:Hf.
  - rewrite (H x Hf). simpl. lia.
  - destruct (g x); simpl; lia.
Qed.

(** Once a query has a filter that counts, giving further filters, or
    any filter in place of an empty one, can only add matches: every
    vendor that matched still matches and [total_count] does not
    drop. *)
Theorem more_filters_widen (name tax_id address contact_email : option string)
    (name' tax_id' address' contact_email' : option string)
    (page page_size : Z) (rows : Table) :
  widens name name' → widens tax_id tax_id' →
  widens address address' → widens contact_email contact_email' →
  VendorRepository.conditions name tax_id address contact_email ≠ [] →
  (∀ v, VendorRepository.where_
          (VendorRepository.conditions name tax_id address contact_email) v
        = true →
        VendorRepository.where_
          (VendorRepository.conditions name' tax_id' address' contact_email') v
        = true)
  ∧ ∃ found found',
      VendorRepository.search_vendors name tax_id address contact_email
        page page_size rows = (Ok found, rows)
      ∧ VendorRepository.search_vendors name' tax_id' address' contact_email'
          page page_size rows = (Ok found', rows)
      ∧ snd found ≤ snd found'.
Proof.
  intros H1 H2 H3 H4 Hne.
  assert (Hw : ∀ v, VendorRepository.where_
          (VendorRepository.conditions name tax_id address contact_email) v
        = true →
        VendorRepository.where_
          (VendorRepository.conditions name' tax_id' address' contact_email') v
        = true).
  { intros v Hv. apply existsb_where.
    unfold VendorRepository.where_ in Hv.
    destruct (VendorRepository.conditions name tax_id address contact_email)
      as [|c cs] eqn:Hc; [congruence|].
    rewrite <- Hc in Hv. unfold VendorRepository.conditions in *.
    rewrite !existsb_app, !orb_true_iff in *.
    destruct Hv as [Hv|[Hv|[Hv|Hv]]];
      eauto using condition_widens. }
  split; [exact Hw|].
  unfold VendorRepository.search_vendors. eexists _, _.
  split; [reflexivity|]. split; [reflexivity|]. simpl.
  apply inj_le, filter_length_mono, Hw.
Qed.

(** ** Pages of the change feed, and what the feed sees *)







(** ** More on the CSV import *)

Section ImportOutcomes.

Variable read_csv : string → string + pd.DataFrame.
Variable validate_email : string → option string.

Lemma VendorCreate_validate_fields (name tax_id : string)
    (address contact_email : option string) (d : VendorCreate.t) :
  VendorService.VendorCreate_validate validate_email name tax_id address
    contact_email = Ok d →
  VendorCreate.name d = name ∧ VendorCreate.tax_id d = tax_id.
Proof.
  unfold VendorService.VendorCreate_validate.
  destruct contact_email as [e|]; [destruct (validate_email e)|];
    intros [= <-]; auto.
Qed.








Lemma get_zip_absent (columns : list string) (cells : list cell)
    (key : string) :
  key ∉ columns → pd.get (zip columns cells) key = None.
Proof.
  revert cells. induction columns as [|k columns IH]; intros cells Hn;
    [reflexivity|].
  apply not_elem_of_cons in Hn as [Hk Hn].
  destruct cells as [|c cells]; [reflexivity|]. simpl.
  destruct (String.eqb_spec k key) as [Heq|_]; [congruence|].
  apply IH, Hn.
Qed.

Lemma import_row_without_name (now row_num : Z) (row : pd.Series)
    (rows : Table) :
  pd.get row "name" = None →
  ∃ err, VendorService.import_row validate_email now row_num row rows
         = (Ok (Some err), rows)
         ∧ (ImportError.field err = "name" ∨ ImportError.field err = "general").
Proof.
  intros Hg. unfold VendorService.import_row.
  unfold try_except, bind, lift, ret.
  destruct (VendorService.VendorCreate_validate _ _ _ _ _) as [d|e] eqn:Hd;
    simpl; [|eexists; split; [reflexivity|auto]].
  apply VendorCreate_validate_fields in Hd as [Hn _].
  unfold VendorService.get_or_empty in Hn. rewrite Hg in Hn. simpl in Hn.
  change (Py.strip "") with "" in Hn. rewrite Hn. simpl.
  eexists. split; [reflexivity|auto].
Qed.

(** The column check ignores letter case but the rows are read by the
    exact label: a CSV that has the name column only under another
    spelling, such as [Name], passes the check and then has every row
    rejected, nothing being imported. *)
Theorem import_miscased_name_column (now : Z) (content : string)
    (df : pd.DataFrame) (rows : Table) :
  read_csv content = inr df →
  VendorService.missing_cols df = [] →
  "name" ∉ pd.columns df →
  ∃ result,
    VendorService.import_vendors_csv read_csv validate_email now content rows
    = (Ok result, rows)
    ∧ ImportResult.success_count result = 0
    ∧ ImportResult.error_count result = ImportResult.total_rows result
    ∧ Forall (λ err, ImportError.field err = "name"
                     ∨ ImportError.field err = "general")
        (ImportResult.errors result).
Proof.
  intros Hread Hcols Hname.
  unfold VendorService.import_vendors_csv. rewrite Hread, Hcols.
  assert (Hrows : ∀ batch idx n errs,
    Forall (λ row, pd.get row "name" = None) batch →
    ∃ recorded,
      VendorService.import_rows validate_email now idx batch n errs rows
      = (Ok (n, errs ++ recorded), rows)
      ∧ length recorded = length batch
      ∧ Forall (λ err, ImportError.field err = "name"
                       ∨ ImportError.field err = "general") recorded).
  { intros batch idx n errs Hall. revert idx errs.
    induction Hall as [|row rest Hg _ IH]; intros idx errs.
    - exists []. rewrite app_nil_r. auto.
    - rewrite import_rows_cons.
      destruct (import_row_without_name now (idx + 2) row rows Hg)
        as (err & -> & Hfield).
      destruct (IH (idx + 1) (errs ++ [err])) as (recorded & -> & Hlen & Hf).
      exists (err :: recorded). rewrite <- app_assoc.
      split; [reflexivity|]. split; [simpl; lia|].
      apply Forall_cons. auto. }
  destruct (Hrows (pd.iterrows df) 0 0 []) as (recorded & Hr & Hlen & Hf).
  { unfold pd.iterrows. apply Forall_fmap, Forall_forall.
    intros cells _. simpl. apply get_zip_absent, Hname. }
  unfold bind. rewrite Hr. eexists. split; [reflexivity|]. simpl.
  split; [reflexivity|]. split; [|exact Hf].
  rewrite Hlen. unfold pd.iterrows. rewrite length_fmap. reflexivity.
Qed.

(** A missing name is not a blank name: where the name cell is NaN the
    row passes the name check, and with a tax id not yet stored it is
    imported as a vendor whose name is the text [nan]. *)
Theorem import_row_nan_name (now row_num : Z) (row : pd.Series)
    (d : VendorCreate.t) (rows : Table) :
  pd.get row "name" = Some NaN →
  row_vendor_data validate_email row = Ok d →
  Py.truthy (VendorCreate.tax_id d) = true →
  ¬ tax_id_exists (VendorCreate.tax_id d) rows →
  VendorCreate.name d = "nan"
  ∧ VendorService.import_row validate_email now row_num row rows
    = (Ok None,
       rows ++ [Vendor.mk (VendorRepository.next_id rows) "nan"
                  (VendorCreate.tax_id d) (VendorCreate.address d)
                  (VendorCreate.contact_email d) now now]).
Proof.
  intros Hg Hd Ht Hfresh. rewrite tax_id_exists_elem in Hfresh.
  assert (Hn : VendorCreate.name d = "nan").
  { unfold row_vendor_data in Hd.
    apply VendorCreate_validate_fields in Hd as [Hn _].
    unfold VendorService.get_or_empty in Hn. rewrite Hg in Hn. exact Hn. }
  split; [exact Hn|].
  rewrite (import_row_fresh validate_email now row_num row d rows);
    [rewrite Hn; reflexivity| |exact Hfresh].
  split; [exact Hd|]. rewrite Hn. auto.
Qed.

End ImportOutcomes.

(** ** API keys *)







(** ** Health *)

Lemma foldl_max_spec (rest : list Z) :
  ∀ x, (foldl Z.max x rest = x ∨ foldl Z.max x rest ∈ rest)
       ∧ x ≤ foldl Z.max x rest
       ∧ ∀ y, y ∈ rest → y ≤ foldl Z.max x rest.
Proof.
  induction rest as [|z rest IH]; intros x; simpl.
  - split; [auto|]. split; [lia|]. intros y Hy. apply elem_of_nil in Hy as [].
  - destruct (IH (Z.max x z)) as (Hin & Hle & Hall). split; [|split].
    + destruct Hin as [Heq|Hin].
      * rewrite Heq. destruct (Z.max_spec x z) as [[_ ->]|[_ ->]];
          [right; apply list_elem_of_here|left; reflexivity].
      * right. apply list_elem_of_further, Hin.
    + lia.
    + intros y Hy. apply elem_of_cons in Hy as [->|Hy]; [lia|auto].
Qed.

Lemma py_max_spec (xs : list Z) (m : Z) :
  IntegrationService.py_max xs = Some m ↔ m ∈ xs ∧ ∀ x, x ∈ xs → x ≤ m.
Proof.
  destruct xs as [|x rest]; simpl.
  - split; [discriminate|]. intros [H _]. apply elem_of_nil in H as [].
  - destruct (foldl_max_spec rest x) as (Hin & Hle & Hall). split.
    + intros [= <-]. split.
      * destruct Hin as [->|Hin];
          [apply list_elem_of_here|apply list_elem_of_further, Hin].
      * intros y Hy. apply elem_of_cons in Hy as [->|Hy]; auto.
    + intros [Hm Hmax]. f_equal. apply Z.le_antisymm.
      * destruct Hin as [->|Hin].
        -- apply Hmax, list_elem_of_here.
        -- apply Hmax, list_elem_of_further, Hin.
      * apply elem_of_cons in Hm as [->|Hm]; auto.
Qed.

(** The health check never raises.  When the vendor listing answers,
    the status is healthy, [total_vendors] is the number of vendors and
    [last_updated] the greatest [updated_at] among them, absent exactly
    when there is no vendor; when the listing raises, the status is
    unhealthy and both figures are absent. *)
Theorem get_health_status_reports (get_all_vendors : M (list VendorRead))
    (now : Z) (rows : Table) :
  ∃ h,
    fst (IntegrationService.get_health_status_with get_all_vendors now rows)
      = Ok h
    ∧ IntegrationHealthCheck.timestamp h = now
    ∧ match fst (get_all_vendors rows) with
      | Ok vendors =>
          IntegrationHealthCheck.status h = "healthy"
          ∧ IntegrationHealthCheck.total_vendors h
            = Some (Z.of_nat (length vendors))
          ∧ (IntegrationHealthCheck.last_updated h = None ↔ vendors = [])
          ∧ ∀ m, IntegrationHealthCheck.last_updated h = Some m
                 ↔ (∃ v, v ∈ vendors ∧ Vendor.updated_at v = m)
                   ∧ ∀ v, v ∈ vendors → Vendor.updated_at v ≤ m
      | Raise _ =>
          IntegrationHealthCheck.status h = "unhealthy"
          ∧ IntegrationHealthCheck.total_vendors h = None
          ∧ IntegrationHealthCheck.last_updated h = None
      end.
Proof.
  unfold IntegrationService.get_health_status_with, try_except, bind, ret.
  destruct (get_all_vendors rows) as [[vendors|e] rows']; simpl.
  2:{ eexists. split; [reflexivity|]. simpl. auto. }
  eexists. split; [reflexivity|]. simpl. split; [reflexivity|].
  split; [reflexivity|]. split; [reflexivity|].
  destruct vendors as [|v0 vendors].
  - split; [tauto|]. intros m. split; [discriminate|].
    intros [(v & Hv & _) _]. apply elem_of_nil in Hv as [].
  - split; [split; discriminate|]. intros m.
    rewrite py_max_spec. split.
    + intros [Hm Hmax]. split.
      * apply list_elem_of_fmap in Hm as (v & -> & Hv). eauto.
      * intros v Hv. apply Hmax, list_elem_of_fmap. eauto.
    + intros [(v & Hv & <-) Hmax]. split.
      * apply list_elem_of_fmap. eauto.
      * intros x Hx. apply list_elem_of_fmap in Hx as (w & -> & Hw). auto.
Qed.

(** ** Status codes of the routes *)



Section RouteStatuses.

Variable str : exn → string.


End RouteStatuses.



(** ** Instances of the further properties *)

Lemma pk_decide (rows : Table) :
  bool_decide (pk_vendor_id rows) = true → pk_vendor_id rows.
Proof. intros H. exact (bool_decide_eq_true_1 _ H). Qed.


Lemma create_vendor_then_lookup_witness :
  VendorService.get_vendor_by_id 2 [acme; Vendor.mk 2 "Bolt" "T-9" None None 5 5]
  = (Ok (Some (Vendor.mk 2 "Bolt" "T-9" None None 5 5)),
     [acme; Vendor.mk 2 "Bolt" "T-9" None None 5 5]).
Proof.
  destruct (create_vendor_then_lookup 5 (VendorCreate.mk "Bolt" "T-9" None None)
              [acme] [acme; Vendor.mk 2 "Bolt" "T-9" None None 5 5]
              (Vendor.mk 2 "Bolt" "T-9" None None 5 5) eq_refl)
    as (_ & _ & _ & _ & _ & _ & _ & _ & Hget & _).
  exact Hget.
Defined.

Lemma constraints_invariant_witness :
  pk_vendor_id
    (serve sample_read_csv sample_validate_email
       [Write (CreateVendor 1 (VendorCreate.mk "Blank" "" None None));
        DeleteVendor 1;
        Write (ImportVendorsCsv 4 "name,tax_id,address,contact_email");
        Write (UpdateVendor 5 2 (set_tax_id "T-9"));
        DeleteVendor 7]
       [acme])
  ∧ tax_unique
      (serve sample_read_csv sample_validate_email
         [Write (CreateVendor 1 (VendorCreate.mk "Blank" "" None None));
          DeleteVendor 1;
          Write (ImportVendorsCsv 4 "name,tax_id,address,contact_email");
          Write (UpdateVendor 5 2 (set_tax_id "T-9"));
          DeleteVendor 7]
         [acme]).
Proof.
  apply constraints_invariant.
  - apply pk_decide. reflexivity.
  - apply tax_unique_decide. reflexivity.
Defined.

Lemma update_vendor_null_required_witness :
  ∃ e,
    VendorService.update_vendor 7 1
      (VendorUpdate.mk (Values.mk (Some None) None None None))
      [acme; blank_tax]
    = (Raise e, [acme; blank_tax]).
Proof.
  apply (update_vendor_null_required 7 1
           (VendorUpdate.mk (Values.mk (Some None) None None None))
           [acme; blank_tax] acme).
  - reflexivity.
  - left. reflexivity.
Defined.

Lemma update_vendor_succeeds_witness :
  ∃ updated,
    VendorRepository.set_values 7
      (VendorUpdate.fields_set (set_tax_id "T-2")) acme = Some updated
    ∧ VendorService.update_vendor 7 (Vendor.id acme) (set_tax_id "T-2")
        [acme; blank_tax]
      = (Ok (Some updated), replaced (Vendor.id acme) updated [acme; blank_tax]).
Proof.
  apply (update_vendor_succeeds 7 (set_tax_id "T-2") [acme; blank_tax] acme).
  - apply pk_decide. reflexivity.
  - apply tax_unique_decide. reflexivity.
  - apply list_elem_of_here.
  - discriminate.
  - discriminate.
  - intros t other [= <-] Hother Htax.
    apply elem_of_cons in Hother as [->|Hother]; [reflexivity|].
    apply list_elem_of_singleton in Hother. subst other. discriminate Htax.
Defined.

Lemma more_filters_widen_witness :
  ∃ found found',
    VendorRepository.search_vendors (Some "acme") None None (Some "") 1 50
      [acme; blank_tax; xyz] = (Ok found, [acme; blank_tax; xyz])
    ∧ VendorRepository.search_vendors (Some "acme") (Some "xyz") None
        (Some "nut@") 1 50 [acme; blank_tax; xyz]
      = (Ok found', [acme; blank_tax; xyz])
    ∧ snd found ≤ snd found'.
Proof.
  destruct (more_filters_widen (Some "acme") None None (Some "")
              (Some "acme") (Some "xyz") None (Some "nut@") 1 50
              [acme; blank_tax; xyz]) as (_ & Hcount).
  - left. reflexivity.
  - right. reflexivity.
  - left. reflexivity.
  - right. reflexivity.
  - discriminate.
  - exact Hcount.
Defined.





Lemma import_miscased_name_column_witness :
  ∃ result,
    VendorService.import_vendors_csv (λ _, inr capitalised_frame)
      sample_validate_email 4 "Name,tax_id,address,contact_email" [acme]
    = (Ok result, [acme])
    ∧ ImportResult.success_count result = 0
    ∧ ImportResult.error_count result = ImportResult.total_rows result
    ∧ Forall (λ err, ImportError.field err = "name"
                     ∨ ImportError.field err = "general")
        (ImportResult.errors result).
Proof.
  apply (import_miscased_name_column (λ _, inr capitalised_frame)
           sample_validate_email 4 "Name,tax_id,address,contact_email"
           capitalised_frame).
  - reflexivity.
  - reflexivity.
  - intros Hin. repeat (apply elem_of_cons in Hin as [Hin|Hin];
                        [discriminate Hin|]).
    apply elem_of_nil in Hin as [].
Defined.

Lemma import_row_nan_name_witness :
  VendorService.import_row sample_validate_email 4 2
    [("name", NaN); ("tax_id", Value "T-9"); ("address", NaN);
     ("contact_email", NaN)] [acme]
  = (Ok None, [acme] ++ [Vendor.mk 2 "nan" "T-9" None None 4 4]).
Proof.
  destruct (import_row_nan_name sample_validate_email 4 2
              [("name", NaN); ("tax_id", Value "T-9"); ("address", NaN);
               ("contact_email", NaN)]
              (VendorCreate.mk "nan" "T-9" None None) [acme])
    as (_ & Himport).
  - reflexivity.
  - reflexivity.
  - reflexivity.
  - apply tax_id_fresh_decide. reflexivity.
  - exact Himport.
Defined.
